(** * LimaCharlie backend for sigmac: a shallow embedding

    The development follows [tools/sigma/backends/limacharlie.py].
    Python values are an inductive type, dictionaries that end up in the
    generated D&R rule are insertion-ordered association lists, the
    registry tables that are only ever looked up are [gmap]s, exceptions
    are the left summand of a small error monad, and the four instance
    attributes that [generate] assigns are an explicit state. *)

From Stdlib Require Import ZArith Ascii String List Bool Lia.
From stdpp Require Import base option gmap strings list pretty.
Import ListNotations.
Open Scope string_scope.

(** ** Python values *)

#[local] Set Warnings "-register-all".

Inductive pyval : Type :=
| PNone
| PBool (b : bool)
| PInt (z : Z)
| PStr (s : string)
| PList (items : list pyval)
| PDict (items : list (string * pyval))
| PPattern (source : string).

(** A [dict] whose order matters: the list keeps insertion order. *)
Abbreviation pydict := (list (string * pyval)).

Fixpoint dict_get (d : pydict) (k : string) : option pyval :=
  match d with
  | [] => None
  | (k', v) :: rest => if String.eqb k' k then Some v else dict_get rest k
  end.

(** [d[k] = v]: an existing key keeps its position, a new key goes last. *)
Fixpoint dict_setitem (d : pydict) (k : string) (v : pyval) : pydict :=
  match d with
  | [] => [(k, v)]
  | (k', v') :: rest =>
      if String.eqb k' k then (k', v) :: rest
      else (k', v') :: dict_setitem rest k v
  end.

(** [d.update(other)] *)
Definition dict_update (d other : pydict) : pydict :=
  fold_left (fun acc kv => dict_setitem acc (fst kv) (snd kv)) other d.

Definition dict_keys (d : pydict) : list string := map fst d.

Definition is_none (v : pyval) : bool :=
  match v with PNone => true | _ => false end.

(** [str(type(v))] *)
Definition py_type_str (v : pyval) : string :=
  match v with
  | PNone => "<class 'NoneType'>"
  | PBool _ => "<class 'bool'>"
  | PInt _ => "<class 'int'>"
  | PStr _ => "<class 'str'>"
  | PList _ => "<class 'list'>"
  | PDict _ => "<class 'dict'>"
  | PPattern _ => "<class 're.Pattern'>"
  end.

(** ** Exceptions and the error monad *)

Inductive exception : Type :=
| NotImplementedError (msg : string)
| TypeError (msg : string)
| KeyError (key : string)
| RepresenterError.

Inductive result (A : Type) : Type :=
| Ok (a : A)
| Raise (e : exception).
Arguments Ok {A} a.
Arguments Raise {A} e.

#[global] Instance result_ret : MRet result := fun A a => Ok a.
#[global] Instance result_bind : MBind result := fun A B k r =>
  match r with
  | Ok a => k a
  | Raise e => Raise e
  end.

(** A list comprehension [[f(x) for x in xs]]: left to right, the first
    exception ends it. *)
Definition comprehension {A B : Type} (f : A -> result B) : list A -> result (list B) :=
  fix go (xs : list A) : result (list B) :=
    match xs with
    | [] => Ok []
    | x :: rest => y ← f x; ys ← go rest; Ok (y :: ys)
    end.

(** The failures the backend raises on purpose, under the names of the
    error taxonomy. *)
Definition UnsupportedLogSource (product category service : string) : exception :=
  NotImplementedError
    ("Log source " ++ product ++ "/" ++ category ++ "/" ++ service
       ++ " not supported by backend.").
Definition UnsupportedField (fieldname : string) : exception :=
  NotImplementedError ("Field name " ++ fieldname ++ " not supported by backend.").
Definition UnsupportedKeywordSearch : exception :=
  NotImplementedError "Full-text keyboard searches not supported.".
Definition UnsupportedNegation : exception :=
  NotImplementedError "Not operator not available on non-dict nodes.".
Definition UnsupportedTypeModifier (cls : string) : exception :=
  TypeError ("Backend does not support TypeModifier: <class '" ++ cls ++ "'>").
Definition UnsupportedValueType (v : pyval) : exception :=
  TypeError ("Backend does not support map values of type " ++ py_type_str v).
Definition MalformedSelection : exception :=
  NotImplementedError "Selection combination not supported.".

(** Exceptions that come from a [raise] statement of the backend, as
    opposed to those a failed Python operation throws on its own. *)
Definition designated_failure (e : exception) : bool :=
  match e with
  | NotImplementedError _ => true
  | TypeError msg => String.prefix "Backend does not support" msg
  | KeyError _ => false
  | RepresenterError => false
  end.

(** ** String operations used by the value pattern compiler *)

Definition star : ascii := "*"%char.
Definition qmark : ascii := "?"%char.
Definition backslash : ascii := "\"%char.
Definition dquote : ascii := "034"%char.

(** [val[1:]] *)
Definition slice_from_1 (s : string) : string :=
  match s with
  | EmptyString => EmptyString
  | String _ rest => rest
  end.

(** [val[:-1]] *)
Fixpoint slice_to_last (s : string) : string :=
  match s with
  | EmptyString => EmptyString
  | String c rest =>
      match rest with
      | EmptyString => EmptyString
      | String _ _ => String c (slice_to_last rest)
      end
  end.

(** [val[1:-1]] *)
Definition slice_inner (s : string) : string := slice_to_last (slice_from_1 s).

(** ["*" in s] *)
Fixpoint contains_star (s : string) : bool :=
  match s with
  | EmptyString => false
  | String c rest => Ascii.eqb c star || contains_star rest
  end.

(** [val.startswith("*")] *)
Definition startswith_star (s : string) : bool :=
  match s with
  | EmptyString => false
  | String c _ => Ascii.eqb c star
  end.

(** [val.endswith("*")] *)
Fixpoint endswith_star (s : string) : bool :=
  match s with
  | EmptyString => false
  | String c EmptyString => Ascii.eqb c star
  | String _ rest => endswith_star rest
  end.

(** The character class of the first substitution: double quote, dot,
    caret and dollar. *)
Definition in_escape_class (c : ascii) : bool :=
  Ascii.eqb c dquote || Ascii.eqb c "."%char || Ascii.eqb c "^"%char
  || Ascii.eqb c "$"%char.

(** The negative lookahead [(?![*?])]: what follows is not [*] or [?];
    it also succeeds at the end of the string. *)
Definition lookahead_not_wildcard (rest : string) : bool :=
  match rest with
  | EmptyString => true
  | String d _ => negb (Ascii.eqb d star || Ascii.eqb d qmark)
  end.

(** The first [re.sub]: its pattern is the alternation of the character
    class above and of a backslash under the negative lookahead, and its
    replacement is a backslash followed by group 1.  Every match is one
    character long, so the scan is a left-to-right pass that puts a
    backslash in front of each matching character. *)
Fixpoint sub_escape (s : string) : string :=
  match s with
  | EmptyString => EmptyString
  | String c rest =>
      if in_escape_class c
         || (Ascii.eqb c backslash && lookahead_not_wildcard rest)
      then String backslash (String c (sub_escape rest))
      else String c (sub_escape rest)
  end.

(** [re.sub('\\*', '.*', val)] *)
Fixpoint sub_star (s : string) : string :=
  match s with
  | EmptyString => EmptyString
  | String c rest =>
      if Ascii.eqb c star then String "."%char (String star (sub_star rest))
      else String c (sub_star rest)
  end.

(** [re.sub('\\?', '.', val)] *)
Fixpoint sub_qmark (s : string) : string :=
  match s with
  | EmptyString => EmptyString
  | String c rest =>
      if Ascii.eqb c qmark then String "."%char (sub_qmark rest)
      else String c (sub_qmark rest)
  end.

(** ** The expression tree handed over by the rule parser *)

(** The value of a field/value pair: a plain Python value (string,
    integer, list, [None], or something else), or a typed modifier, of
    which the regular expression is the one the backend knows. *)
Inductive mapvalue : Type :=
| MPlain (v : pyval)
| MRegularExpression (pattern : string)
| MOtherModifier (cls : string).

Inductive literal : Type :=
| LitStr (s : string)
| LitInt (z : Z).

Definition py_of_literal (l : literal) : pyval :=
  match l with
  | LitStr s => PStr s
  | LitInt z => PInt z
  end.

Inductive node : Type :=
| ConditionAND (items : list node)
| ConditionOR (items : list node)
| ConditionNOT (item : node)
| NodeSubexpression (items : node)
| NodeList (values : list node)
| NodeMapItem (fieldname : string) (value : mapvalue)
| NodeValue (lit : literal).

(** What the backend reads of the parsed rule: the log-source mapping,
    the remaining top-level keys of the rule (title, tags, ...), and the
    root of the parsed condition. *)
Record SigmaParser : Type := {
  logsource : gmap string string;
  parsedyaml : gmap string pyval;
  parsedSearch : node
}.

(** ** The mapping registry *)

Definition _windowsEventLogFieldName (fieldName : string) : string :=
  if String.eqb "EventID" fieldName then "Event/System/EventID"
  else "Event/EventData/" ++ fieldName.

(** A field mapping is a dict (whose values may be [None]) or a callable. *)
Inductive fieldMappings_t : Type :=
| MappingDict (d : gmap string (option string))
| MappingCallable (f : string -> option string).

Record SigmaLCConfig : Type := {
  topLevelParams : pydict;
  preConditions : pyval;
  fieldMappings : fieldMappings_t;
  isAllStringValues : bool;
  isKeywordsSupported : bool
}.

Definition process_events : pydict :=
  [("events", PList [PStr "NEW_PROCESS"; PStr "EXISTING_PROCESS"])].

Definition wel_log : pydict :=
  [("target", PStr "log"); ("log type", PStr "wel")].

Definition windows_process_creation : SigmaLCConfig := {|
  topLevelParams := process_events;
  preConditions := PDict [("op", PStr "is windows")];
  fieldMappings := MappingDict (list_to_map [
    ("CommandLine", Some "event/COMMAND_LINE");
    ("Image", Some "event/FILE_PATH");
    ("ParentImage", Some "event/PARENT/FILE_PATH");
    ("ParentCommandLine", Some "event/PARENT/COMMAND_LINE");
    ("User", Some "event/USER_NAME");
    ("OriginalFileName", None);
    ("NewProcessName", Some "event/FILE_PATH");
    ("ProcessCommandLine", Some "event/COMMAND_LINE");
    ("Command", Some "event/COMMAND_LINE") ]);
  isAllStringValues := false;
  isKeywordsSupported := false
|}.

Definition windows_event_log : SigmaLCConfig := {|
  topLevelParams := wel_log;
  preConditions := PNone;
  fieldMappings := MappingCallable (fun n => Some (_windowsEventLogFieldName n));
  isAllStringValues := true;
  isKeywordsSupported := false
|}.

Definition dns_requests : SigmaLCConfig := {|
  topLevelParams := [("event", PStr "DNS_REQUEST")];
  preConditions := PNone;
  fieldMappings := MappingDict (list_to_map [("query", Some "event/DOMAIN_NAME")]);
  isAllStringValues := false;
  isKeywordsSupported := false
|}.

Definition linux_processes : SigmaLCConfig := {|
  topLevelParams := process_events;
  preConditions := PDict [("op", PStr "is linux")];
  fieldMappings := MappingDict (list_to_map [
    ("keywords", Some "event/COMMAND_LINE");
    ("exe", Some "event/FILE_PATH");
    ("type", None) ]);
  isAllStringValues := false;
  isKeywordsSupported := true
|}.

Definition netflow_connections : SigmaLCConfig := {|
  topLevelParams := [("event", PStr "NETWORK_CONNECTIONS")];
  preConditions := PNone;
  fieldMappings := MappingDict (list_to_map [
    ("destination.port", Some "event/NETWORK_ACTIVITY/DESTINATION/PORT");
    ("source.port", Some "event/NETWORK_ACTIVITY/SOURCE/PORT") ]);
  isAllStringValues := false;
  isKeywordsSupported := true
|}.

Definition _allFieldMappings : gmap string SigmaLCConfig :=
  list_to_map [
    ("windows/process_creation/", windows_process_creation);
    ("windows//", windows_event_log);
    ("windows_defender//", windows_event_log);
    ("dns//", dns_requests);
    ("linux//", linux_processes);
    ("unix//", linux_processes);
    ("netflow//", netflow_connections) ].

(** ** The backend instance *)

(** The four attributes [generate] assigns on [self]. *)
Record backend : Type := {
  _fieldMappingInEffect : fieldMappings_t;
  _preCondition : pyval;
  _isAllStringValues : bool;
  _isKeywordsSupported : bool
}.

(** The attributes a call of [generate] leaves on the instance for a
    registry entry. *)
Definition backend_of (cfg : SigmaLCConfig) : backend := {|
  _fieldMappingInEffect := fieldMappings cfg;
  _preCondition := preConditions cfg;
  _isAllStringValues := isAllStringValues cfg;
  _isKeywordsSupported := isKeywordsSupported cfg
|}.

(** ** YAML text

    PyYAML is a library the backend calls.  A YAML text is modelled by
    the document it encodes, as the loader reads it back: the dumper
    writes the keys of every mapping in sorted order, at every depth,
    so that is the order of the dicts of the document.  The safe dumper
    has no representer for a compiled pattern. *)
Inductive yaml_text : Type :=
| YamlOf (doc : pyval).

Fixpoint representable (v : pyval) : bool :=
  match v with
  | PList items => forallb representable items
  | PDict items => forallb (fun kv => let '(_, x) := kv in representable x) items
  | PPattern _ => false
  | _ => true
  end.

(** [sorted(mapping.items())] of the dumper: an insertion sort on the
    keys, which keeps entries with the same key in their order. *)
Fixpoint insert_item (kv : string * pyval) (sorted : pydict) : pydict :=
  match sorted with
  | [] => [kv]
  | kv' :: rest =>
      if String.leb (fst kv) (fst kv') then kv :: sorted
      else kv' :: insert_item kv rest
  end.

Definition sort_items (items : pydict) : pydict :=
  fold_right insert_item [] items.

(** The document as the dumper writes it. *)
Fixpoint sort_keys (v : pyval) : pyval :=
  match v with
  | PList items => PList (map sort_keys items)
  | PDict items =>
      PDict (sort_items (map (fun kv => let '(k, x) := kv in (k, sort_keys x)) items))
  | _ => v
  end.

Definition safe_dump (v : pyval) : result yaml_text :=
  if representable v then Ok (YamlOf (sort_keys v)) else Raise RepresenterError.

Definition safe_load (t : yaml_text) : pyval :=
  match t with YamlOf doc => doc end.

(** A mapped field path as the Python value stored under [path]. *)
Definition path_value (p : option string) : pyval :=
  match p with
  | Some s => PStr s
  | None => PNone
  end.

(** ** The translator *)

Section Backend.

(** [str] and [repr] are Python builtins.  [str] is written out for
    the scalars; what it prints for a list, a dict or a compiled
    pattern is their [repr], which is left as a parameter. *)
Variable py_repr : pyval -> string.

Definition py_str (v : pyval) : string :=
  match v with
  | PNone => "None"
  | PBool true => "True"
  | PBool false => "False"
  | PInt z => pretty z
  | PStr s => s
  | _ => py_repr v
  end.

Definition _valuePatternToLcOp (self : backend) (val : pyval) : string * pyval :=
  match val with
  | PStr s =>
      if contains_star (slice_inner s) then
        let s := sub_escape s in
        let s := sub_star s in
        let s := sub_qmark s in
        ("matches", PStr s)
      else if endswith_star s && startswith_star s then
        ("contains", PStr (slice_inner s))
      else if endswith_star s then
        ("starts with", PStr (slice_to_last s))
      else if startswith_star s then
        ("ends with", PStr (slice_from_1 s))
      else ("is", val)
  | _ => ("is", if _isAllStringValues self then PStr (py_str val) else val)
  end.

(** [re.compile(value)] in the branch of the regular expression
    modifier: what it is handed is the modifier object, which is
    neither a string nor a compiled pattern, and [re.compile] raises. *)
Definition re_compile_modifier (pattern : string) : result pyval :=
  Raise (TypeError "first argument must be string or compiled pattern").

Definition generateValueNode (lit : literal) : result pyval :=
  Ok (py_of_literal lit).

(** The leaf match built for one value of a field. *)
Definition field_match (self : backend) (path : string) (v : pyval) : pyval :=
  let '(op, newVal) := _valuePatternToLcOp self v in
  PDict [("op", PStr op); ("path", PStr path); ("value", newVal);
         ("case sensitive", PBool false)].

Definition generateMapItemNode (self : backend)
    (fieldname : string) (value : mapvalue) : result pyval :=
  fieldname ←
    match _fieldMappingInEffect self with
    | MappingCallable f => Ok (f fieldname)
    | MappingDict d =>
        match d !! fieldname with
        | Some p => Ok p
        | None => Raise (UnsupportedField fieldname)
        end
    end;
  match fieldname with
  | None => Ok PNone
  | Some path =>
      match value with
      | MPlain (PInt _ as v) | MPlain (PBool _ as v) | MPlain (PStr _ as v) =>
          Ok (field_match self path v)
      | MPlain (PList vs) =>
          let subOps := map (field_match self path) vs in
          match subOps with
          | [single] => Ok single
          | _ => Ok (PDict [("op", PStr "or"); ("rules", PList subOps)])
          end
      | MRegularExpression pattern =>
          re ← re_compile_modifier pattern;
          Ok (PDict [("op", PStr "matches"); ("path", PStr path); ("re", re)])
      | MOtherModifier cls => Raise (UnsupportedTypeModifier cls)
      | MPlain PNone =>
          Ok (PDict [("op", PStr "exists"); ("not", PBool true);
                     ("path", PStr path)])
      | MPlain v => Raise (UnsupportedValueType v)
      end
  end.

(** [self._fieldMappingInEffect["keywords"]] *)
Definition keywords_path (self : backend) : result pyval :=
  match _fieldMappingInEffect self with
  | MappingDict d =>
      match d !! "keywords" with
      | Some p => Ok (path_value p)
      | None => Raise (KeyError "keywords")
      end
  | MappingCallable _ => Raise (TypeError "'function' object is not subscriptable")
  end.

(** The body of the keyword loop for one surviving value. *)
Definition keyword_match (self : backend) (k : pyval) : result pyval :=
  let '(op, newVal) := _valuePatternToLcOp self k in
  path ← keywords_path self;
  Ok (PDict [("op", PStr op); ("path", path); ("value", newVal)]).

(** [[g for g in generated if g is not None]] *)
Definition not_none (generated : list pyval) : list pyval :=
  List.filter (fun g => negb (is_none g)) generated.

Section NodeHandlers.

Variable self : backend.
(** The dispatcher the handlers call back into. *)
Variable generateNode : node -> result pyval.

Definition generateANDNode (node : list node) : result pyval :=
  generated ← comprehension generateNode node;
  let filtered := not_none generated in
  match filtered with
  | [] => Ok PNone
  | [single] => Ok single
  | _ => Ok (PDict [("op", PStr "and"); ("rules", PList filtered)])
  end.

Definition generateORNode (node : list node) : result pyval :=
  generated ← comprehension generateNode node;
  let filtered := not_none generated in
  match filtered with
  | [] => Ok PNone
  | first :: _ =>
      filtered ←
        match first with
        | PStr _ =>
            if negb (_isKeywordsSupported self)
            then Raise UnsupportedKeywordSearch
            else comprehension (keyword_match self) filtered
        | _ => Ok filtered
        end;
      match filtered with
      | [single] => Ok single
      | _ => Ok (PDict [("op", PStr "or"); ("rules", PList filtered)])
      end
  end.

Definition generateNOTNode (item : node) : result pyval :=
  generated ← generateNode item;
  match generated with
  | PNone => Ok PNone
  | PDict d => Ok (PDict (dict_setitem d "not" (PBool true)))
  | _ => Raise UnsupportedNegation
  end.

Definition generateSubexpressionNode (items : node) : result pyval :=
  generateNode items.

Definition generateListNode (values : list node) : result pyval :=
  generated ← comprehension generateNode values;
  Ok (PList generated).

End NodeHandlers.

(** Modelled from the spec: [generateNode] is inherited from
    [BaseBackend] in [base.py], which is not part of the sources.  It
    dispatches on the kind of the node to the handler of that kind. *)
Fixpoint generateNode (self : backend) (n : node) : result pyval :=
  match n with
  | ConditionAND items => generateANDNode (generateNode self) items
  | ConditionOR items => generateORNode self (generateNode self) items
  | ConditionNOT item => generateNOTNode (generateNode self) item
  | NodeSubexpression items => generateSubexpressionNode (generateNode self) items
  | NodeList values => generateListNode (generateNode self) values
  | NodeMapItem fieldname value => generateMapItemNode self fieldname value
  | NodeValue lit => generateValueNode lit
  end.

Definition generateQuery (self : backend) (parsed : node) : result yaml_text :=
  result ← generateNode self parsed;
  let result :=
    if negb (is_none (_preCondition self))
    then PDict [("op", PStr "and"); ("rules", PList [_preCondition self; result])]
    else result in
  safe_dump result.

(** Modelled from the spec: [generate] of [BaseBackend] in [base.py],
    which is not part of the sources.  It invokes the query generator
    on the rule's root expression and hands its text back. *)
Definition BaseBackend_generate (self : backend) (sigmaparser : SigmaParser)
    : result yaml_text :=
  generateQuery self (parsedSearch sigmaparser).

(** ** The document assembler *)

(** The lookup key of [generate].  The service of the log source is
    not read: the key always ends in an empty service. *)
Definition mappingKey (sigmaparser : SigmaParser) : string :=
  let ls_rule := logsource sigmaparser in
  let category := default "" (ls_rule !! "category") in
  let product := default "" (ls_rule !! "product") in
  let service := "" in
  product ++ "/" ++ category ++ "/" ++ service.

(** One of the five
    [if ruleConfig.get(key, None) is not None:
       respondComponents[0].setdefault("metadata", {})[key] = ruleConfig[key]]. *)
Definition add_metadata (ruleConfig : gmap string pyval)
    (action : pydict) (key : string) : pydict :=
  match ruleConfig !! key with
  | Some v =>
      if is_none v then action
      else
        let metadata :=
          match dict_get action "metadata" with
          | Some (PDict md) => md
          | _ => []
          end in
        dict_setitem action "metadata" (PDict (dict_setitem metadata key v))
  | None => action
  end.

(** The response component: lines 224 to 243 of [generate]. *)
Definition respondComponents (ruleConfig : gmap string pyval) (title : pyval)
    : list pyval :=
  let action := [("action", PStr "report"); ("name", title)] in
  let action := add_metadata ruleConfig action "tags" in
  let action := add_metadata ruleConfig action "description" in
  let action := add_metadata ruleConfig action "references" in
  let action := add_metadata ruleConfig action "level" in
  let action := add_metadata ruleConfig action "author" in
  [PDict action].

(** [generate] once the instance attributes are assigned. *)
Definition assemble (self : backend) (topFilter : pydict)
    (sigmaparser : SigmaParser) : result yaml_text :=
  let ruleConfig := parsedyaml sigmaparser in
  detectComponent ← BaseBackend_generate self sigmaparser;
  let detectComponent := safe_load detectComponent in
  match detectComponent with
  | PDict detect =>
      let detect := dict_update detect topFilter in
      title ←
        match ruleConfig !! "title" with
        | Some t => Ok t
        | None => Raise (KeyError "title")
        end;
      safe_dump (PDict [("detect", PDict detect);
                        ("respond", PList (respondComponents ruleConfig title))])
  | _ => Raise MalformedSelection
  end.

(** [generate] takes the instance as the previous calls left it
    ([None] for an instance no call has assigned attributes on) and
    returns what the call returns or raises, with the instance as the
    call leaves it. *)
Definition generate (instance : option backend) (sigmaparser : SigmaParser)
    : result yaml_text * option backend :=
  let ls_rule := logsource sigmaparser in
  let category := default "" (ls_rule !! "category") in
  let product := default "" (ls_rule !! "product") in
  let service := "" in
  match _allFieldMappings !! mappingKey sigmaparser with
  | None => (Raise (UnsupportedLogSource product category service), instance)
  | Some cfg =>
      let self := {|
        _fieldMappingInEffect := fieldMappings cfg;
        _preCondition := preConditions cfg;
        _isAllStringValues := isAllStringValues cfg;
        _isKeywordsSupported := isKeywordsSupported cfg
      |} in
      (assemble self (topLevelParams cfg) sigmaparser, Some self)
  end.

End Backend.

(** ** Specification-side definitions

    The functions of this part follow the words of the specification, or
    name a notion its sentences use; the theorems compare them with the
    code above. *)

(** Python's [repr] in examples that print no container. *)
Definition no_repr : pyval -> string := fun _ => "".

(** The key as the specification builds it: product, category and
    service, each empty when absent. *)
Definition spec_mappingKey (sigmaparser : SigmaParser) : string :=
  let ls_rule := logsource sigmaparser in
  default "" (ls_rule !! "product") ++ "/"
    ++ default "" (ls_rule !! "category") ++ "/"
    ++ default "" (ls_rule !! "service").

(** The characters with a meaning of their own in a regular expression. *)
Definition regex_metachar (c : ascii) : bool :=
  existsb (Ascii.eqb c)
    ["."; "^"; "$"; "*"; "+"; "?"; "{"; "}"; "["; "]"; "\"; "|"; "("; ")"]%char.

(** The translation with every metacharacter escaped: [*] becomes [.*],
    [?] becomes [.], any other metacharacter gets a backslash. *)
Fixpoint escape_all_regex (s : string) : string :=
  match s with
  | EmptyString => EmptyString
  | String c rest =>
      if Ascii.eqb c star then String "."%char (String star (escape_all_regex rest))
      else if Ascii.eqb c qmark then String "."%char (escape_all_regex rest)
      else if regex_metachar c then String backslash (String c (escape_all_regex rest))
      else String c (escape_all_regex rest)
  end.

(** The translation in one pass, with the escapes the code makes: a
    backslash goes before a double quote, a dot, a caret, a dollar, and
    before a backslash that no [*] or [?] follows. *)
Fixpoint wildcard_regex (s : string) : string :=
  match s with
  | EmptyString => EmptyString
  | String c rest =>
      if Ascii.eqb c star then String "."%char (String star (wildcard_regex rest))
      else if Ascii.eqb c qmark then String "."%char (wildcard_regex rest)
      else if in_escape_class c
              || (Ascii.eqb c backslash && lookahead_not_wildcard rest)
      then String backslash (String c (wildcard_regex rest))
      else String c (wildcard_regex rest)
  end.

(** The drop/collapse rule of And and Or on the surviving children. *)
Definition collapse (op : string) (survivors : list pyval) : pyval :=
  match survivors with
  | [] => PNone
  | [single] => single
  | _ => PDict [("op", PStr op); ("rules", PList survivors)]
  end.

(** A surviving value rewrapped as a match on the keyword field [path]. *)
Definition keyword_rule (py_repr : pyval -> string) (self : backend)
    (path : pyval) (k : pyval) : pyval :=
  PDict [("op", PStr (fst (_valuePatternToLcOp py_repr self k)));
         ("path", path);
         ("value", snd (_valuePatternToLcOp py_repr self k))].







(** The instance after a series of top-level calls, whatever they return. *)
Definition after_calls (py_repr : pyval -> string)
    (instance : option backend) (rules : list SigmaParser) : option backend :=
  fold_left (fun inst sp => snd (generate py_repr inst sp)) rules instance.

(** ** Shapes and failures of the translator

    The notions below are read off the code; the further properties at
    the end of the file are stated with them. *)

(** The operators the value pattern compiler returns. *)
Definition compiler_operators : list string :=
  ["is"; "starts with"; "ends with"; "contains"; "matches"].

(** The operators some handler writes under the key [op]. *)
Definition lc_operators : list string :=
  (compiler_operators ++ ["exists"; "and"; "or"])%list.

(** What the node translator hands back: [None], a raw string or
    integer, a list, or a dict whose [op] is one of the operators. *)
Definition node_shape (v : pyval) : Prop :=
  match v with
  | PNone | PStr _ | PInt _ | PList _ => True
  | PDict d => exists op, dict_get d "op" = Some (PStr op) /\ In op lc_operators
  | PBool _ | PPattern _ => False
  end.

(** [isinstance(value, (int, str))]: a bool is an int. *)
Definition is_scalar (v : pyval) : bool :=
  match v with
  | PStr _ | PInt _ | PBool _ => true
  | _ => false
  end.

(** The exceptions the handlers can end with: the five raised on
    purpose, the two a failed keyword lookup throws and the one
    [re.compile] throws on a regular expression modifier. *)
Definition translator_failure (e : exception) : Prop :=
  (exists fieldname, e = UnsupportedField fieldname) \/
  e = UnsupportedKeywordSearch \/
  e = UnsupportedNegation \/
  (exists cls, e = UnsupportedTypeModifier cls) \/
  (exists v, e = UnsupportedValueType v) \/
  e = KeyError "keywords" \/
  e = TypeError "'function' object is not subscriptable" \/
  e = TypeError "first argument must be string or compiled pattern".

(** No field of the tree has a regular expression modifier as its value. *)
Fixpoint regex_free (n : node) : bool :=
  match n with
  | ConditionAND items => forallb regex_free items
  | ConditionOR items => forallb regex_free items
  | ConditionNOT item => regex_free item
  | NodeSubexpression items => regex_free items
  | NodeList values => forallb regex_free values
  | NodeMapItem _ (MRegularExpression _) => false
  | NodeMapItem _ _ => true
  | NodeValue _ => true
  end.

(** The keyword lookup of the Or handler cannot fail: it is never
    reached, or the mapping is a table with the key. *)
Definition keyword_safe (self : backend) : Prop :=
  _isKeywordsSupported self = false \/ exists path, keywords_path self = Ok path.

(** The field name resolves to a target path under the mapping in
    effect: the table has it with a path, or the callable returns one. *)
Definition resolves_to (self : backend) (fieldname path : string) : Prop :=
  match _fieldMappingInEffect self with
  | MappingDict d => d !! fieldname = Some (Some path)
  | MappingCallable f => f fieldname = Some path
  end.

(** The values of a field whose branch returns a node: a string, an
    integer, a bool, a list or [None]; the branches of the typed
    modifiers and of any other value raise. *)
Definition supported_value (value : mapvalue) : bool :=
  match value with
  | MPlain v => is_scalar v || is_none v || match v with PList _ => true | _ => false end
  | MRegularExpression _ => false
  | MOtherModifier _ => false
  end.

Definition is_ok {A : Type} (r : result A) : bool :=
  match r with Ok _ => true | Raise _ => false end.

(** The keys of a dict stand in ascending order. *)
Fixpoint sorted_by_key (l : pydict) : bool :=
  match l with
  | kv :: rest =>
      match rest with
      | kv' :: _ => String.leb (fst kv) (fst kv') && sorted_by_key rest
      | [] => true
      end
  | [] => true
  end.

(** The step of the dumper on an entry of a dict. *)
Definition sort_entry (kv : string * pyval) : string * pyval :=
  let '(k, x) := kv in (k, sort_keys x).

(** A root translation that is no node: [None], a string or an integer. *)
Definition is_raw (v : pyval) : bool :=
  match v with
  | PNone | PStr _ | PInt _ => true
  | _ => false
  end.

(** A DNS rule whose condition is a bare keyword. *)
Definition dns_keyword_rule : SigmaParser := {|
  logsource := {["product" := "dns"]};
  parsedyaml := {["title" := PStr "T1"]};
  parsedSearch := NodeValue (LitStr "evil.example")
|}.

(** A DNS rule on the one field the DNS table has. *)
Definition dns_rule : SigmaParser := {|
  logsource := {["product" := "dns"]};
  parsedyaml := {["title" := PStr "T1"]};
  parsedSearch := NodeMapItem "query" (MPlain (PStr "*.example"))
|}.

(** The rule list of a combinator the node translator returns: its
    entries are never [None] and it never has exactly one entry. *)
Definition rules_kept (v : pyval) : Prop :=
  match v with
  | PDict d =>
      forall x, dict_get d "rules" = Some x ->
      exists rules, x = PList rules /\ Forall (fun r => is_none r = false) rules
                    /\ length rules <> 1
  | _ => True
  end.

(** ** Example rules *)

Definition linux : backend := backend_of linux_processes.
Definition netflow : backend := backend_of netflow_connections.

(** A Windows event log rule that names a service. *)
Definition sysmon_rule : SigmaParser := {|
  logsource := list_to_map [("product", "windows"); ("service", "sysmon")];
  parsedyaml := {["title" := PStr "T1"]};
  parsedSearch := NodeMapItem "EventID" (MPlain (PInt 1))
|}.

(** A rule for a product the registry does not know. *)
Definition macos_rule : SigmaParser := {|
  logsource := {["product" := "macos"]};
  parsedyaml := {["title" := PStr "T1"]};
  parsedSearch := NodeMapItem "exe" (MPlain (PStr "/bin/sh"))
|}.

(** A Linux rule with tags, level and author, and neither description
    nor references. *)
Definition linux_rule : SigmaParser := {|
  logsource := {["product" := "linux"]};
  parsedyaml := list_to_map [
    ("title", PStr "T1"); ("tags", PList [PStr "attack.execution"]);
    ("level", PStr "high"); ("author", PStr "someone") ];
  parsedSearch := NodeMapItem "exe" (MPlain (PStr "/bin/sh"))
|}.

(** * Properties *)

(** ** Strings *)

Lemma contains_star_inner_tail (t : string) :
  contains_star (slice_to_last t) = true <->
  exists j, S j < String.length t /\ String.get j t = Some star.
Proof.
  induction t as [|c r IH]; simpl.
  - split; [discriminate | intros (j & Hj & _); lia].
  - destruct r as [|c' r'].
    + simpl. split; [discriminate | intros (j & Hj & _); lia].
    + cbn [contains_star]. rewrite orb_true_iff, IH. split.
      * intros [Hc | (j & Hj & Hg)].
        -- apply Ascii.eqb_eq in Hc. subst c. exists 0. simpl. split; [lia | done].
        -- exists (S j). split; [simpl in *; lia | exact Hg].
      * intros (j & Hj & Hg). destruct j as [|j].
        -- left. simpl in Hg. injection Hg as ->. apply Ascii.eqb_refl.
        -- right. exists j. split; [simpl in *; lia | exact Hg].
Qed.

(** The test of the compiler's first branch holds exactly when a [*]
    stands at a position that is neither the first nor the last. *)
Lemma contains_star_inner (s : string) :
  contains_star (slice_inner s) = true <->
  exists i, 0 < i /\ S i < String.length s /\ String.get i s = Some star.
Proof.
  unfold slice_inner. rewrite contains_star_inner_tail.
  destruct s as [|c t]; simpl.
  - split; [intros (j & Hj & _); lia | intros (i & _ & Hi & _); lia].
  - split.
    + intros (j & Hj & Hg). exists (S j). repeat split; [lia | lia | exact Hg].
    + intros (i & H0 & Hi & Hg). destruct i as [|j]; [lia |].
      exists j. split; [lia | exact Hg].
Qed.

Lemma sub_passes_one_pass (s : string) :
  sub_qmark (sub_star (sub_escape s)) = wildcard_regex s.
Proof.
  induction s as [|c rest IH]; [reflexivity |].
  cbn [sub_escape wildcard_regex].
  destruct (Ascii.eqb c star) eqn:Hstar.
  - apply Ascii.eqb_eq in Hstar. subst c.
    cbn. unfold star in IH. by rewrite IH.
  - destruct (Ascii.eqb c qmark) eqn:Hq.
    + apply Ascii.eqb_eq in Hq. subst c. cbn. by rewrite IH.
    + destruct (in_escape_class c || (Ascii.eqb c backslash && lookahead_not_wildcard rest));
        cbn [sub_star sub_qmark]; rewrite ?Hstar, ?Hq; cbn; rewrite ?Hstar, ?Hq, ?IH; reflexivity.
Qed.

(** ** The value pattern compiler *)

Implicit Types (py_repr : pyval -> string) (self : backend).

(** C2.  The wildcard compilation table: a trailing [*] gives a prefix
    match, a leading [*] a suffix match, both a substring match, an
    inner [*] a regular expression, no [*] an equality; the integer 5
    becomes the string 5 when all values are strings, and a value that
    is not a string is passed on unchanged when they are not. *)
Theorem C2_compile_table py_repr self :
  _valuePatternToLcOp py_repr self (PStr "abc*") = ("starts with", PStr "abc") /\
  _valuePatternToLcOp py_repr self (PStr "*abc") = ("ends with", PStr "abc") /\
  _valuePatternToLcOp py_repr self (PStr "*abc*") = ("contains", PStr "abc") /\
  _valuePatternToLcOp py_repr self (PStr "a*b") = ("matches", PStr "a.*b") /\
  _valuePatternToLcOp py_repr self (PStr "abc") = ("is", PStr "abc") /\
  (_isAllStringValues self = true ->
   _valuePatternToLcOp py_repr self (PInt 5) = ("is", PStr "5")) /\
  (forall v, _isAllStringValues self = false -> (forall s, v <> PStr s) ->
   _valuePatternToLcOp py_repr self v = ("is", v)).
Proof.
  repeat split; try reflexivity.
  - intros Hall. simpl. by rewrite Hall.
  - intros v Hall Hv. destruct v; simpl; rewrite ?Hall; try reflexivity.
    by destruct (Hv s).
Qed.

Lemma C2_compile_table_witness :
  _isAllStringValues (backend_of windows_event_log) = true /\
  _valuePatternToLcOp no_repr (backend_of windows_event_log) (PInt 5)
    = ("is", PStr "5") /\
  _isAllStringValues linux = false /\
  (forall s, PInt 5 <> PStr s) /\
  _valuePatternToLcOp no_repr linux (PInt 5) = ("is", PInt 5).
Proof.
  split; [reflexivity |]. split.
  - apply (C2_compile_table no_repr (backend_of windows_event_log)). reflexivity.
  - split; [reflexivity |]. split; [discriminate |].
    apply (C2_compile_table no_repr linux); [reflexivity | discriminate].
Defined.

(** C3, as the code has it.  For a string with a [*] at a position that
    is neither the first nor the last, the compiler returns the operator
    [matches] with the pattern in which a backslash is put before each
    double quote, dot, caret and dollar and before each backslash that
    no [*] or [?] follows, every [*] is [.*] and every [?] is [.]; the
    other metacharacters are left as they are. *)
Theorem C3_inner_wildcard py_repr self (s : string) (i : nat) :
  0 < i -> S i < String.length s -> String.get i s = Some star ->
  _valuePatternToLcOp py_repr self (PStr s) = ("matches", PStr (wildcard_regex s)).
Proof.
  intros H0 Hi Hg.
  assert (Hin : contains_star (slice_inner s) = true).
  { apply contains_star_inner. eauto. }
  unfold _valuePatternToLcOp. rewrite Hin. by rewrite sub_passes_one_pass.
Qed.

Lemma C3_inner_wildcard_witness :
  _valuePatternToLcOp no_repr linux (PStr "C:\Temp\*.ex?")
    = ("matches", PStr "C:\\Temp\.*\.ex.").
Proof.
  apply (C3_inner_wildcard no_repr linux "C:\Temp\*.ex?" 8); [lia | simpl; lia | reflexivity].
Defined.

(** C3, as the claim states it, fails: the plus sign is a regular
    expression metacharacter and the compiler leaves it unescaped. *)
Lemma C3_not_all_metachars_escaped :
  contains_star (slice_inner "a+*b") = true /\
  regex_metachar "+" = true /\
  escape_all_regex "a+*b" = "a\+.*b" /\
  _valuePatternToLcOp no_repr linux (PStr "a+*b") = ("matches", PStr "a+.*b") /\
  _valuePatternToLcOp no_repr linux (PStr "a+*b")
    <> ("matches", PStr (escape_all_regex "a+*b")).
Proof. repeat split; try reflexivity. discriminate. Qed.

(** ** The error monad *)

Lemma bind_Ok {A B : Type} (a : A) (k : A -> result B) : (Ok a ≫= k) = k a.
Proof. reflexivity. Qed.

Lemma bind_Raise {A B : Type} (e : exception) (k : A -> result B) :
  (Raise e ≫= k) = Raise e.
Proof. reflexivity. Qed.

(** ** List comprehensions *)

Section Comprehension.
Context {A B : Type} (f : A -> result B).

Lemma comprehension_cons (x : A) (xs : list A) :
  comprehension f (x :: xs)
  = (y ← f x; ys ← comprehension f xs; Ok (y :: ys)).
Proof. reflexivity. Qed.

(** A comprehension returns a list exactly when every element is
    translated, in the order of the input. *)
Lemma comprehension_Forall2 (xs : list A) (ys : list B) :
  comprehension f xs = Ok ys <-> Forall2 (fun x y => f x = Ok y) xs ys.
Proof.
  revert ys. induction xs as [|x xs IH]; intros ys.
  - simpl. split.
    + intros [= <-]. constructor.
    + intros H. by inversion H.
  - rewrite comprehension_cons. split.
    + destruct (f x) as [y|e] eqn:Hx; [| discriminate]. cbn.
      destruct (comprehension f xs) as [ys'|e] eqn:Hxs; [| discriminate]. cbn.
      intros [= <-]. constructor; [exact Hx | by apply IH].
    + intros H. inversion H as [|? y ? ys' Hx Hxs]; subst.
      rewrite Hx. cbn. apply IH in Hxs. rewrite Hxs. reflexivity.
Qed.

(** A comprehension over a function that cannot fail is a [map]. *)
Lemma comprehension_total (g : A -> B) (xs : list A) :
  (forall x, f x = Ok (g x)) -> comprehension f xs = Ok (map g xs).
Proof.
  intros Hf. induction xs as [|x xs IH]; [reflexivity |].
  rewrite comprehension_cons, Hf, IH. reflexivity.
Qed.

(** A comprehension over a function that always raises the same
    exception raises it on the first element. *)
Lemma comprehension_raise (e : exception) (x : A) (xs : list A) :
  f x = Raise e -> comprehension f (x :: xs) = Raise e.
Proof. intros Hf. rewrite comprehension_cons, Hf. reflexivity. Qed.

End Comprehension.

Lemma comprehension_map {A B C : Type} (f : B -> result C) (h : A -> B)
    (xs : list A) :
  comprehension f (map h xs) = comprehension (fun x => f (h x)) xs.
Proof.
  induction xs as [|x xs IH]; [reflexivity |].
  cbn [map]. by rewrite !comprehension_cons, IH.
Qed.

(** ** Dictionaries *)

Lemma dict_get_setitem_eq (d : pydict) (k : string) (v : pyval) :
  dict_get (dict_setitem d k v) k = Some v.
Proof.
  induction d as [|[k' v'] d IH]; simpl.
  - by rewrite String.eqb_refl.
  - destruct (String.eqb k' k) eqn:Hk; simpl; rewrite Hk; [reflexivity | exact IH].
Qed.

Lemma dict_get_setitem_ne (d : pydict) (k k' : string) (v : pyval) :
  k <> k' -> dict_get (dict_setitem d k v) k' = dict_get d k'.
Proof.
  intros Hne. induction d as [|[k0 v0] d IH]; simpl.
  - destruct (String.eqb k k') eqn:Hk; [| reflexivity].
    apply String.eqb_eq in Hk. contradiction.
  - destruct (String.eqb k0 k) eqn:Hk; simpl.
    + apply String.eqb_eq in Hk. subst k0.
      destruct (String.eqb k k') eqn:Hk'; [| reflexivity].
      apply String.eqb_eq in Hk'. contradiction.
    + by rewrite IH.
Qed.

(** ** The node translator *)

Lemma generateNode_AND py_repr self (items : list node) :
  generateNode py_repr self (ConditionAND items)
  = (generated ← comprehension (generateNode py_repr self) items;
     Ok (collapse "and" (not_none generated))).
Proof.
  cbn [generateNode]. unfold generateANDNode.
  destruct (comprehension _ items) as [generated|e]; [| reflexivity]. cbn.
  by destruct (not_none generated) as [|? [|? ?]].
Qed.

Lemma generateNode_OR py_repr self (items : list node) :
  generateNode py_repr self (ConditionOR items)
  = generateORNode py_repr self (generateNode py_repr self) items.
Proof. reflexivity. Qed.

Lemma generateNode_NOT py_repr self (item : node) :
  generateNode py_repr self (ConditionNOT item)
  = generateNOTNode (generateNode py_repr self) item.
Proof. reflexivity. Qed.

Lemma keyword_match_ok py_repr self (path k : pyval) :
  keywords_path self = Ok path ->
  keyword_match py_repr self k = Ok (keyword_rule py_repr self path k).
Proof.
  intros Hpath. unfold keyword_match, keyword_rule. rewrite Hpath.
  by destruct (_valuePatternToLcOp py_repr self k).
Qed.

Lemma keyword_match_raise py_repr self (e : exception) (k : pyval) :
  keywords_path self = Raise e -> keyword_match py_repr self k = Raise e.
Proof.
  intros Hpath. unfold keyword_match. rewrite Hpath.
  by destruct (_valuePatternToLcOp py_repr self k).
Qed.

(** The keyword loop over a list that is not empty: the lookup of the
    keyword field decides, and when it succeeds every value is rewrapped. *)
Lemma keyword_loop py_repr self (k : pyval) (ks : list pyval) :
  comprehension (keyword_match py_repr self) (k :: ks)
  = (path ← keywords_path self;
     Ok (map (keyword_rule py_repr self path) (k :: ks))).
Proof.
  destruct (keywords_path self) as [path|e] eqn:Hpath.
  - apply comprehension_total. intros k'. by apply keyword_match_ok.
  - apply comprehension_raise. by apply keyword_match_raise.
Qed.

Lemma keywords_path_dict self (d : gmap string (option string)) :
  _fieldMappingInEffect self = MappingDict d ->
  keywords_path self
  = match d !! "keywords" with
    | Some K => Ok (path_value K)
    | None => Raise (KeyError "keywords")
    end.
Proof. intros Hd. unfold keywords_path. by rewrite Hd. Qed.

(** An And or an Or whose children all translate to [None] is [None]
    itself, not a combinator with an empty rule list. *)
Lemma all_none_elided py_repr self (items : list node) (generated : list pyval) :
  Forall2 (fun n g => generateNode py_repr self n = Ok g) items generated ->
  not_none generated = [] ->
  generateNode py_repr self (ConditionAND items) = Ok PNone /\
  generateNode py_repr self (ConditionOR items) = Ok PNone.
Proof.
  intros Hgen Hnone. apply comprehension_Forall2 in Hgen. split.
  - rewrite generateNode_AND, Hgen. cbn. by rewrite Hnone.
  - rewrite generateNode_OR. unfold generateORNode. rewrite Hgen. cbn.
    by rewrite Hnone.
Qed.

(** C4.  Under the Linux dialect, whose field mapping sends [type] to
    [None] and which has a precondition, the root [type: x] translates
    to [None]; the query generator nevertheless puts this [None] as the
    second rule of the and-wrapper of the precondition, and [generate]
    returns a document whose detection holds it. *)
Theorem C4_null_root_under_precondition py_repr :
  let root := NodeMapItem "type" (MPlain (PStr "x")) in
  let rule := {| logsource := {["product" := "linux"]};
                 parsedyaml := {["title" := PStr "T1"]};
                 parsedSearch := root |} in
  generateNode py_repr linux root = Ok PNone /\
  generateNode py_repr linux (ConditionAND [root; root]) = Ok PNone /\
  generateNode py_repr linux (ConditionOR [root; root]) = Ok PNone /\
  generateQuery py_repr linux root
    = Ok (YamlOf (PDict [("op", PStr "and");
                         ("rules", PList [PDict [("op", PStr "is linux")]; PNone])])) /\
  fst (generate py_repr None rule)
    = Ok (YamlOf (PDict [
        ("detect", PDict [
           ("events", PList [PStr "NEW_PROCESS"; PStr "EXISTING_PROCESS"]);
           ("op", PStr "and");
           ("rules", PList [PDict [("op", PStr "is linux")]; PNone])]);
        ("respond", PList [PDict [("action", PStr "report");
                                  ("name", PStr "T1")]])])).
Proof. repeat split; vm_compute; reflexivity. Qed.

(** C5.  When the children of an Or translate and the first translation
    that is left once the [None] ones are dropped is a string, the Or
    raises the keyword failure if the context has no keyword support;
    with keyword support and a mapping table that has the key
    [keywords], every translation that is left goes through the value
    pattern compiler and becomes a match on the path the table gives
    for [keywords], a single one being returned as it is and several
    under an [or], in the order of the children. *)
Theorem C5_or_keyword_list py_repr self (items : list node)
    (generated : list pyval) (s : string) (rest : list pyval) :
  Forall2 (fun n g => generateNode py_repr self n = Ok g) items generated ->
  List.filter (fun g => negb (is_none g)) generated = PStr s :: rest ->
  (_isKeywordsSupported self = false ->
   generateNode py_repr self (ConditionOR items) = Raise UnsupportedKeywordSearch) /\
  (forall (d : gmap string (option string)) (K : option string),
   _isKeywordsSupported self = true ->
   _fieldMappingInEffect self = MappingDict d -> d !! "keywords" = Some K ->
   generateNode py_repr self (ConditionOR items)
   = Ok (match rest with
         | [] => keyword_rule py_repr self (path_value K) (PStr s)
         | _ => PDict [("op", PStr "or");
                       ("rules", PList (map (keyword_rule py_repr self (path_value K))
                                            (PStr s :: rest)))]
         end)).
Proof.
  intros Hgen Hfirst. apply comprehension_Forall2 in Hgen.
  change (not_none generated = PStr s :: rest) in Hfirst.
  rewrite generateNode_OR. unfold generateORNode. rewrite Hgen.
  cbn -[comprehension]. rewrite Hfirst. split.
  - intros Hkw. by rewrite Hkw.
  - intros d K Hkw Hd HK. rewrite Hkw. cbn [negb].
    rewrite keyword_loop, (keywords_path_dict self d Hd), HK.
    cbn. by destruct rest.
Qed.

Lemma C5_or_keyword_list_witness :
  let ignored := NodeMapItem "type" (MPlain (PStr "EXECVE")) in
  let items := [ignored; NodeValue (LitStr "foo*"); ignored;
                NodeValue (LitStr "*bar")] in
  let generated := [PNone; PStr "foo*"; PNone; PStr "*bar"] in
  Forall2 (fun n g => generateNode no_repr linux n = Ok g) items generated /\
  List.filter (fun g => negb (is_none g)) generated = PStr "foo*" :: [PStr "*bar"] /\
  _isKeywordsSupported linux = true /\
  (exists d, _fieldMappingInEffect linux = MappingDict d /\
             d !! "keywords" = Some (Some "event/COMMAND_LINE")) /\
  generateNode no_repr linux (ConditionOR items)
  = Ok (PDict [("op", PStr "or");
               ("rules", PList [
                  PDict [("op", PStr "starts with");
                         ("path", PStr "event/COMMAND_LINE");
                         ("value", PStr "foo")];
                  PDict [("op", PStr "ends with");
                         ("path", PStr "event/COMMAND_LINE");
                         ("value", PStr "bar")]])]) /\
  _isKeywordsSupported (backend_of windows_process_creation) = false /\
  generateNode no_repr (backend_of windows_process_creation)
    (ConditionOR [NodeValue (LitStr "foo*"); NodeValue (LitStr "*bar")])
  = Raise UnsupportedKeywordSearch.
Proof.
  intros ignored items generated.
  assert (Hgen : Forall2 (fun n g => generateNode no_repr linux n = Ok g)
                   items generated).
  { repeat constructor. }
  assert (Hwin : Forall2 (fun n g => generateNode no_repr
                                       (backend_of windows_process_creation) n = Ok g)
                   [NodeValue (LitStr "foo*"); NodeValue (LitStr "*bar")]
                   [PStr "foo*"; PStr "*bar"]).
  { repeat constructor. }
  split; [exact Hgen |]. split; [reflexivity |]. split; [reflexivity |].
  split; [eexists; split; reflexivity |]. split.
  - apply (proj2 (C5_or_keyword_list no_repr linux items generated "foo*"
                    [PStr "*bar"] Hgen eq_refl)
             (list_to_map [("keywords", Some "event/COMMAND_LINE");
                           ("exe", Some "event/FILE_PATH"); ("type", None)])
             (Some "event/COMMAND_LINE")); reflexivity.
  - split; [reflexivity |].
    apply (proj1 (C5_or_keyword_list no_repr (backend_of windows_process_creation)
                    _ _ "foo*" [PStr "*bar"] Hwin eq_refl)). reflexivity.
Defined.

(** C6, as the code has it.  An And drops the [None] translations of its
    children and collapses the survivors, kept in the order of the
    children: none gives [None], one gives that one unwrapped, several
    give an [and] over them; so an And of one child translates as the
    child does.  An Or does the same with [or] whenever its first
    survivor is not a string; an Or of one child translates as the
    child does unless the child translates to a string. *)
Theorem C6_and_or_collapse py_repr self :
  (forall items generated,
     Forall2 (fun n g => generateNode py_repr self n = Ok g) items generated ->
     generateNode py_repr self (ConditionAND items)
     = Ok (collapse "and" (not_none generated))) /\
  (forall items generated,
     Forall2 (fun n g => generateNode py_repr self n = Ok g) items generated ->
     (forall s rest, not_none generated <> PStr s :: rest) ->
     generateNode py_repr self (ConditionOR items)
     = Ok (collapse "or" (not_none generated))) /\
  (forall child,
     generateNode py_repr self (ConditionAND [child])
     = generateNode py_repr self child) /\
  (forall child,
     (forall s, generateNode py_repr self child <> Ok (PStr s)) ->
     generateNode py_repr self (ConditionOR [child])
     = generateNode py_repr self child).
Proof.
  split; [| split; [| split]].
  - intros items generated Hgen. apply comprehension_Forall2 in Hgen.
    by rewrite generateNode_AND, Hgen.
  - intros items generated Hgen Hfirst. apply comprehension_Forall2 in Hgen.
    rewrite generateNode_OR. unfold generateORNode. rewrite Hgen. cbn.
    destruct (not_none generated) as [|first rest] eqn:Hsurv; [reflexivity |].
    destruct first; try (cbn; by destruct rest).
    by destruct (Hfirst s rest).
  - intros child. rewrite generateNode_AND, comprehension_cons.
    destruct (generateNode py_repr self child) as [g|e]; [| reflexivity].
    by destruct g.
  - intros child Hstr. rewrite generateNode_OR. unfold generateORNode.
    rewrite comprehension_cons.
    destruct (generateNode py_repr self child) as [g|e]; [| reflexivity].
    destruct g; try reflexivity. by destruct (Hstr s).
Qed.

Lemma C6_and_or_collapse_witness :
  let exe := NodeMapItem "exe" (MPlain (PStr "/bin/sh")) in
  let ignored := NodeMapItem "type" (MPlain (PStr "EXECVE")) in
  let leaf := PDict [("op", PStr "is"); ("path", PStr "event/FILE_PATH");
                     ("value", PStr "/bin/sh"); ("case sensitive", PBool false)] in
  Forall2 (fun n g => generateNode no_repr linux n = Ok g)
    [exe; ignored; exe] [leaf; PNone; leaf] /\
  (forall s rest, not_none [leaf; PNone; leaf] <> PStr s :: rest) /\
  generateNode no_repr linux (ConditionOR [exe; ignored; exe])
    = Ok (PDict [("op", PStr "or"); ("rules", PList [leaf; leaf])]) /\
  (forall s, generateNode no_repr linux exe <> Ok (PStr s)) /\
  generateNode no_repr linux (ConditionOR [exe]) = Ok leaf.
Proof.
  intros exe ignored leaf.
  assert (Hgen : Forall2 (fun n g => generateNode no_repr linux n = Ok g)
                   [exe; ignored; exe] [leaf; PNone; leaf]).
  { repeat constructor. }
  assert (Hfirst : forall s rest, not_none [leaf; PNone; leaf] <> PStr s :: rest).
  { intros s rest. discriminate. }
  assert (Hstr : forall s, generateNode no_repr linux exe <> Ok (PStr s)).
  { intros s. discriminate. }
  split; [exact Hgen |]. split; [exact Hfirst |]. split.
  - apply (proj1 (proj2 (C6_and_or_collapse no_repr linux)) _ _ Hgen Hfirst).
  - split; [exact Hstr |].
    apply (proj2 (proj2 (proj2 (C6_and_or_collapse no_repr linux))) exe Hstr).
Defined.

(** C6, as the claim states it, fails: under the Linux dialect an Or
    whose one child is the bare string [foo] is not the translation of
    that child, it is a match of the keyword field. *)
Lemma C6_single_keyword_or_rewrapped :
  generateNode no_repr linux (NodeValue (LitStr "foo")) = Ok (PStr "foo") /\
  generateNode no_repr linux (ConditionOR [NodeValue (LitStr "foo")])
    = Ok (PDict [("op", PStr "is"); ("path", PStr "event/COMMAND_LINE");
                 ("value", PStr "foo")]) /\
  generateNode no_repr linux (ConditionOR [NodeValue (LitStr "foo")])
    <> generateNode no_repr linux (NodeValue (LitStr "foo")).
Proof. repeat split; try reflexivity. discriminate. Qed.

(** C7.  A Not over a child that translates to [None] is [None]; over a
    child that translates to a dict it is that dict with [not] set to
    [True] and every other key as it was; over a child that translates
    to anything else it raises the negation failure. *)
Theorem C7_not_node py_repr self (child : node) :
  (generateNode py_repr self child = Ok PNone ->
   generateNode py_repr self (ConditionNOT child) = Ok PNone) /\
  (forall d, generateNode py_repr self child = Ok (PDict d) ->
   exists d',
     generateNode py_repr self (ConditionNOT child) = Ok (PDict d') /\
     d' = dict_setitem d "not" (PBool true) /\
     dict_get d' "not" = Some (PBool true) /\
     (forall k, k <> "not" -> dict_get d' k = dict_get d k)) /\
  (forall v, generateNode py_repr self child = Ok v ->
   v <> PNone -> (forall d, v <> PDict d) ->
   generateNode py_repr self (ConditionNOT child) = Raise UnsupportedNegation).
Proof.
  rewrite generateNode_NOT. unfold generateNOTNode. repeat split.
  - intros ->. reflexivity.
  - intros d ->. exists (dict_setitem d "not" (PBool true)).
    repeat split.
    + apply dict_get_setitem_eq.
    + intros k Hk. apply dict_get_setitem_ne. congruence.
  - intros v -> Hnone Hdict. cbn.
    destruct v; try reflexivity; [by destruct Hnone | by destruct (Hdict items)].
Qed.

Lemma C7_not_node_witness :
  let ignored := NodeMapItem "type" (MPlain (PStr "EXECVE")) in
  let exe := NodeMapItem "exe" (MPlain (PStr "/bin/sh")) in
  let raw := NodeValue (LitStr "foo") in
  generateNode no_repr linux ignored = Ok PNone /\
  generateNode no_repr linux (ConditionNOT ignored) = Ok PNone /\
  generateNode no_repr linux (ConditionNOT exe)
    = Ok (PDict [("op", PStr "is"); ("path", PStr "event/FILE_PATH");
                 ("value", PStr "/bin/sh"); ("case sensitive", PBool false);
                 ("not", PBool true)]) /\
  generateNode no_repr linux raw = Ok (PStr "foo") /\
  generateNode no_repr linux (ConditionNOT raw) = Raise UnsupportedNegation.
Proof.
  intros ignored exe raw.
  split; [reflexivity |]. split.
  - apply (proj1 (C7_not_node no_repr linux ignored)). reflexivity.
  - split.
    + destruct (proj1 (proj2 (C7_not_node no_repr linux exe)) _ eq_refl)
        as (d' & Hnot & Hd' & _).
      rewrite Hnot, Hd'. reflexivity.
    + split; [reflexivity |].
      apply (proj2 (proj2 (C7_not_node no_repr linux raw)) (PStr "foo"));
        [reflexivity | discriminate | discriminate].
Defined.

(** C10.  With keyword support and a mapping table, the keyword fallback
    of an Or indexes the table with the key [keywords] and has no guard:
    a table without that key raises [KeyError].  The registry entry of
    [netflow//] declares keyword support and its table has no such key,
    so any Or of bare strings under that dialect raises [KeyError], which
    is none of the failures the backend raises on purpose. *)
Theorem C10_netflow_keywords_unguarded py_repr :
  (forall self (d : gmap string (option string)) items generated s rest,
     _isKeywordsSupported self = true ->
     _fieldMappingInEffect self = MappingDict d ->
     Forall2 (fun n g => generateNode py_repr self n = Ok g) items generated ->
     not_none generated = PStr s :: rest ->
     generateNode py_repr self (ConditionOR items)
     = match d !! "keywords" with
       | None => Raise (KeyError "keywords")
       | Some K =>
           Ok (collapse "or" (map (keyword_rule py_repr self (path_value K))
                                  (PStr s :: rest)))
       end) /\
  _allFieldMappings !! "netflow//" = Some netflow_connections /\
  isKeywordsSupported netflow_connections = true /\
  (exists d, fieldMappings netflow_connections = MappingDict d /\
             d !! "keywords" = None) /\
  (forall (s : string) (more : list string),
     generateNode py_repr netflow
       (ConditionOR (map (fun k => NodeValue (LitStr k)) (s :: more)))
     = Raise (KeyError "keywords")) /\
  designated_failure (KeyError "keywords") = false.
Proof.
  split; [| split; [| split; [| split; [| split]]]].
  - intros self d items generated s rest Hkw Hd Hgen Hfirst.
    apply comprehension_Forall2 in Hgen.
    rewrite generateNode_OR. unfold generateORNode. rewrite Hgen.
    cbn -[comprehension]. rewrite Hfirst, Hkw. cbn [negb].
    rewrite keyword_loop, (keywords_path_dict self d Hd).
    destruct (d !! "keywords") as [K|]; [| reflexivity].
    cbn. by destruct rest.
  - reflexivity.
  - reflexivity.
  - eexists. split; reflexivity.
  - intros s more. rewrite generateNode_OR. unfold generateORNode.
    rewrite comprehension_map, (comprehension_total _ PStr) by reflexivity.
    cbn -[comprehension keyword_match]. by rewrite keyword_loop.
  - reflexivity.
Qed.

Lemma C10_netflow_keywords_unguarded_witness :
  generateNode no_repr netflow
    (ConditionOR [NodeValue (LitStr "foo*"); NodeValue (LitStr "*bar")])
  = Raise (KeyError "keywords").
Proof.
  apply (proj1 (proj2 (proj2 (proj2 (proj2
           (C10_netflow_keywords_unguarded no_repr))))) "foo*" ["*bar"]).
Defined.

(** ** The document assembler *)

(** C1, as the code has it.  The lookup key is the product, a slash, the
    category and a slash, the product and the category being empty when
    the log source does not declare them; the service of the log source
    is not part of the key.  When the registry has no entry under the
    key, [generate] raises the log-source failure and leaves the
    instance as it was. *)
Theorem C1_mapping_key py_repr (instance : option backend) (sp : SigmaParser) :
  let product := default "" (logsource sp !! "product") in
  let category := default "" (logsource sp !! "category") in
  mappingKey sp = product ++ "/" ++ category ++ "/" /\
  (forall service,
     mappingKey {| logsource := <["service" := service]> (logsource sp);
                   parsedyaml := parsedyaml sp;
                   parsedSearch := parsedSearch sp |}
     = mappingKey sp) /\
  (_allFieldMappings !! mappingKey sp = None ->
   generate py_repr instance sp
   = (Raise (UnsupportedLogSource product category ""), instance)).
Proof.
  intros product category. split; [| split].
  - reflexivity.
  - intros service. unfold mappingKey. cbn [logsource].
    by rewrite !lookup_insert_ne by discriminate.
  - intros Hmiss. unfold generate. by rewrite Hmiss.
Qed.

Lemma C1_mapping_key_witness :
  _allFieldMappings !! mappingKey macos_rule = None /\
  generate no_repr None macos_rule
  = (Raise (NotImplementedError "Log source macos// not supported by backend."),
     None).
Proof.
  split; [reflexivity |].
  apply (proj2 (proj2 (C1_mapping_key no_repr None macos_rule))). reflexivity.
Defined.

(** C1, as the claim states it, fails: for a Windows rule that declares
    the service [sysmon] the key of the claim is [windows//sysmon],
    which the registry does not have, while the code looks up
    [windows//] and translates the rule. *)
Lemma C1_service_not_in_key :
  spec_mappingKey sysmon_rule = "windows//sysmon" /\
  mappingKey sysmon_rule = "windows//" /\
  mappingKey sysmon_rule <> spec_mappingKey sysmon_rule /\
  _allFieldMappings !! spec_mappingKey sysmon_rule = None /\
  fst (generate no_repr None sysmon_rule)
  = Ok (YamlOf (PDict [
      ("detect", PDict [
         ("case sensitive", PBool false); ("log type", PStr "wel");
         ("op", PStr "is"); ("path", PStr "Event/System/EventID");
         ("target", PStr "log"); ("value", PStr "1")]);
      ("respond", PList [PDict [("action", PStr "report");
                                ("name", PStr "T1")]])])).
Proof. repeat split; try reflexivity. discriminate. Qed.

















(** ** The instance across calls *)

(** What a call returns or raises does not depend on the instance it
    starts from. *)
Lemma generate_result_independent py_repr (instance other : option backend)
    (sp : SigmaParser) :
  fst (generate py_repr instance sp) = fst (generate py_repr other sp).
Proof.
  unfold generate.
  by destruct (_allFieldMappings !! mappingKey sp).
Qed.

(** C9, as the code has it.  A top-level call that finds a mapping
    context assigns all four attributes of the instance before it
    translates, and they stay on the instance when the call ends,
    whether it returns or raises; a call that finds none leaves the
    instance as it was.  What a call returns or raises is the same from
    any instance, so it is the same after any series of earlier calls
    as on an instance no call has touched. *)
Theorem C9_context_per_call py_repr (instance : option backend)
    (sp : SigmaParser) :
  snd (generate py_repr instance sp)
  = match _allFieldMappings !! mappingKey sp with
    | Some cfg => Some (backend_of cfg)
    | None => instance
    end /\
  (forall other,
     fst (generate py_repr instance sp) = fst (generate py_repr other sp)) /\
  (forall earlier,
     fst (generate py_repr (after_calls py_repr instance earlier) sp)
     = fst (generate py_repr None sp)).
Proof.
  split; [| split].
  - unfold generate. by destruct (_allFieldMappings !! mappingKey sp).
  - intros other. apply generate_result_independent.
  - intros earlier. apply generate_result_independent.
Qed.

(** C9, as the claim states it, fails: after a call on a Linux rule, on
    an instance no call had touched, the instance holds the Linux
    mapping context; and it still holds it after a later call on a rule
    of an unknown log source. *)
Lemma C9_context_retained :
  snd (generate no_repr None linux_rule) = Some linux /\
  snd (generate no_repr None linux_rule) <> None /\
  after_calls no_repr None [linux_rule; macos_rule] = Some linux.
Proof. repeat split; try reflexivity. discriminate. Qed.

(** * Further properties *)

(** ** The value pattern compiler on every string *)

Lemma contains_star_app (a b : string) :
  contains_star (a ++ b) = contains_star a || contains_star b.
Proof.
  induction a as [|c a IH]; [reflexivity |].
  simpl. by rewrite IH, orb_assoc.
Qed.

Lemma slice_to_last_app_one (a : string) (c : ascii) :
  slice_to_last (a ++ String c EmptyString) = a.
Proof.
  induction a as [|c0 a IH]; [reflexivity |].
  simpl. rewrite IH. by destruct a.
Qed.

Lemma endswith_star_app_one (a : string) (c : ascii) :
  endswith_star (a ++ String c EmptyString) = Ascii.eqb c star.
Proof.
  induction a as [|c0 a IH]; [reflexivity |].
  simpl. rewrite IH. by destruct a.
Qed.

Lemma endswith_star_split (s : string) :
  endswith_star s = true -> s = slice_to_last s ++ "*".
Proof.
  induction s as [|c s IH]; [discriminate |].
  destruct s as [|c' s'].
  - simpl. intros Hc. apply Ascii.eqb_eq in Hc. by subst.
  - intros Hend.
    change (slice_to_last (String c (String c' s')))
      with (String c (slice_to_last (String c' s'))).
    change (String c (String c' s')
            = String c (slice_to_last (String c' s') ++ "*")).
    f_equal. by apply IH.
Qed.

Lemma startswith_star_split (s : string) :
  startswith_star s = true -> s = "*" ++ slice_from_1 s.
Proof.
  destruct s as [|c s]; [discriminate |].
  simpl. intros Hc. apply Ascii.eqb_eq in Hc. by subst.
Qed.

Lemma contains_star_slice_to_last (s : string) :
  contains_star s = false -> contains_star (slice_to_last s) = false.
Proof.
  induction s as [|c s IH]; [reflexivity |].
  simpl. intros Hs. apply orb_false_iff in Hs as [Hc Hs].
  destruct s; [reflexivity |]. cbn [contains_star]. by rewrite Hc, IH.
Qed.

Lemma no_star_no_ends (s : string) :
  contains_star s = false ->
  contains_star (slice_inner s) = false /\
  endswith_star s = false /\ startswith_star s = false.
Proof.
  intros Hs. repeat split.
  - unfold slice_inner. apply contains_star_slice_to_last.
    destruct s; [reflexivity |]. simpl in Hs. by apply orb_false_iff in Hs as [_ Hs].
  - induction s as [|c s IH]; [reflexivity |].
    simpl in Hs. apply orb_false_iff in Hs as [Hc Hs].
    destruct s; [exact Hc | by apply IH].
  - destruct s; [reflexivity |]. simpl in Hs. by apply orb_false_iff in Hs as [Hc _].
Qed.

(** X1.  A string without any [*] is compiled to an equality on the
    string itself, unchanged, whatever else it holds. *)
Theorem compile_without_star py_repr self (s : string) :
  contains_star s = false ->
  _valuePatternToLcOp py_repr self (PStr s) = ("is", PStr s).
Proof.
  intros Hs. destruct (no_star_no_ends s Hs) as (Hin & Hend & Hstart).
  unfold _valuePatternToLcOp. by rewrite Hin, Hend, Hstart.
Qed.

Lemma compile_without_star_witness :
  _valuePatternToLcOp no_repr linux (PStr "C:\Windows\System32\cmd.exe?")
  = ("is", PStr "C:\Windows\System32\cmd.exe?").
Proof. apply (compile_without_star no_repr linux). reflexivity. Defined.

(** X2.  The compiled operator tells how the value was written: a prefix
    match comes from the prefix followed by [*], a suffix match from [*]
    followed by the suffix, a substring match from the substring
    between two [*] or, with an empty substring, from the single
    character [*]; an equality keeps the string. *)
Theorem compile_inverse py_repr self (s v : string) :
  (_valuePatternToLcOp py_repr self (PStr s) = ("starts with", PStr v) ->
   s = v ++ "*") /\
  (_valuePatternToLcOp py_repr self (PStr s) = ("ends with", PStr v) ->
   s = "*" ++ v) /\
  (_valuePatternToLcOp py_repr self (PStr s) = ("contains", PStr v) ->
   s = "*" ++ v ++ "*" \/ (s = "*" /\ v = "")) /\
  (_valuePatternToLcOp py_repr self (PStr s) = ("is", PStr v) -> v = s).
Proof.
  unfold _valuePatternToLcOp.
  destruct (contains_star (slice_inner s));
    [repeat split; discriminate |].
  destruct (endswith_star s) eqn:Hend, (startswith_star s) eqn:Hstart;
    cbn [andb]; repeat split; try discriminate; intros [= <-].
  - apply startswith_star_split in Hstart.
    destruct s as [|c t]; [discriminate |].
    cbn [slice_from_1] in Hstart. injection Hstart as ->.
    unfold slice_inner. cbn [slice_from_1].
    destruct t as [|c' t'].
    + right. by split.
    + left. cbn [append]. f_equal. by apply endswith_star_split.
  - by apply endswith_star_split.
  - by apply startswith_star_split.
  - reflexivity.
Qed.

Lemma compile_inverse_witness :
  _valuePatternToLcOp no_repr linux (PStr "*") = ("contains", PStr "") /\
  ("*" = "*" ++ "" ++ "*" \/ ("*" = "*" /\ "" = "")).
Proof.
  split; [reflexivity |].
  apply (proj1 (proj2 (proj2 (compile_inverse no_repr linux "*" "")))).
  reflexivity.
Defined.

(** X3.  The compiler returns one of five operators; for a string the
    value it returns is a string, and when all values are strings so is
    the value it returns for anything. *)
Theorem compile_range py_repr self (val : pyval) :
  In (fst (_valuePatternToLcOp py_repr self val)) compiler_operators /\
  (forall s, val = PStr s ->
   exists s', snd (_valuePatternToLcOp py_repr self val) = PStr s') /\
  (_isAllStringValues self = true ->
   exists s', snd (_valuePatternToLcOp py_repr self val) = PStr s').
Proof.
  assert (Hstr : forall s,
    In (fst (_valuePatternToLcOp py_repr self (PStr s))) compiler_operators /\
    exists s', snd (_valuePatternToLcOp py_repr self (PStr s)) = PStr s').
  { intros s. unfold _valuePatternToLcOp, compiler_operators.
    destruct (contains_star (slice_inner s));
      [split; [simpl; tauto | eauto] |].
    destruct (endswith_star s), (startswith_star s); cbn [andb];
      (split; [simpl; tauto | eauto]). }
  split; [| split].
  - destruct val; try (left; reflexivity). apply Hstr.
  - intros s ->. apply Hstr.
  - intros Hall. destruct val; try (cbn; rewrite Hall; eauto). apply Hstr.
Qed.

Lemma compile_range_witness :
  _isAllStringValues (backend_of windows_event_log) = true /\
  exists s', snd (_valuePatternToLcOp no_repr (backend_of windows_event_log)
                    (PInt (-4624))) = PStr s'.
Proof.
  split; [reflexivity |].
  apply (compile_range no_repr (backend_of windows_event_log) (PInt (-4624))).
  reflexivity.
Defined.

(** X4.  The approximation the source notes: a value without [*] that
    is followed by an escaped asterisk, a backslash and a [*], is
    compiled as if the [*] were a wildcard, to a prefix match on the
    value with the backslash. *)
Theorem compile_trailing_escaped_star py_repr self (s : string) :
  contains_star s = false ->
  _valuePatternToLcOp py_repr self (PStr (s ++ "\*"))
  = ("starts with", PStr (s ++ "\")).
Proof.
  intros Hs.
  assert (Hsplit : s ++ "\*" = (s ++ "\") ++ "*").
  { clear Hs. induction s as [|c s IH]; [reflexivity |].
    change (String c (s ++ "\*") = String c ((s ++ "\") ++ "*")).
    by f_equal. }
  assert (Hbs : contains_star (s ++ "\") = false).
  { rewrite contains_star_app, Hs. reflexivity. }
  rewrite Hsplit. unfold _valuePatternToLcOp.
  rewrite endswith_star_app_one, slice_to_last_app_one.
  assert (Hin : contains_star (slice_inner ((s ++ "\") ++ "*")) = false).
  { unfold slice_inner. destruct s as [|c s]; [reflexivity |].
    change (slice_from_1 ((String c s ++ "\") ++ "*")) with ((s ++ "\") ++ "*").
    rewrite slice_to_last_app_one.
    simpl in Hs. apply orb_false_iff in Hs as [_ Hs].
    rewrite contains_star_app, Hs. reflexivity. }
  rewrite Hin.
  assert (Hstart : startswith_star ((s ++ "\") ++ "*") = false).
  { destruct s as [|c s]; [reflexivity |]. simpl in *.
    by apply orb_false_iff in Hs as [Hc _]. }
  rewrite Hstart. reflexivity.
Qed.

Lemma compile_trailing_escaped_star_witness :
  _valuePatternToLcOp no_repr linux (PStr "100%\*")
  = ("starts with", PStr "100%\").
Proof. apply (compile_trailing_escaped_star no_repr linux "100%"). reflexivity. Defined.

(** ** Field names and field values *)

(** X5.  The field mapping of the Windows event log sends different
    field names to different paths. *)
Theorem windows_field_name_injective (a b : string) :
  a <> b -> _windowsEventLogFieldName a <> _windowsEventLogFieldName b.
Proof.
  intros Hne Heq. apply Hne. unfold _windowsEventLogFieldName in Heq.
  destruct (String.eqb "EventID" a) eqn:Ha, (String.eqb "EventID" b) eqn:Hb.
  - apply String.eqb_eq in Ha, Hb. congruence.
  - discriminate.
  - discriminate.
  - by injection Heq.
Qed.

Lemma windows_field_name_injective_witness :
  _windowsEventLogFieldName "EventID" <> _windowsEventLogFieldName "Image".
Proof. apply windows_field_name_injective. discriminate. Defined.

(** X6.  With a mapping table, the field name is resolved before the
    value is looked at: a name the table does not have raises the field
    failure and a name the table maps to [None] gives [None], whatever
    the value is, also one the backend has no branch for. *)
Theorem map_item_field_first py_repr self (d : gmap string (option string))
    (fieldname : string) (value : mapvalue) :
  _fieldMappingInEffect self = MappingDict d ->
  (d !! fieldname = None ->
   generateMapItemNode py_repr self fieldname value
   = Raise (UnsupportedField fieldname)) /\
  (d !! fieldname = Some None ->
   generateMapItemNode py_repr self fieldname value = Ok PNone).
Proof.
  intros Hd. unfold generateMapItemNode. rewrite Hd.
  split; intros ->; reflexivity.
Qed.

Lemma map_item_field_first_witness :
  generateMapItemNode no_repr linux "Image" (MOtherModifier "SigmaTypeModifier")
  = Raise (UnsupportedField "Image") /\
  generateMapItemNode no_repr linux "type" (MOtherModifier "SigmaTypeModifier")
  = Ok PNone.
Proof.
  split.
  - eapply (proj1 (map_item_field_first no_repr linux _ "Image" _ eq_refl)).
    reflexivity.
  - eapply (proj2 (map_item_field_first no_repr linux _ "type" _ eq_refl)).
    reflexivity.
Defined.

(** X7.  A list with one value is translated as that value alone is:
    for a string, an integer or a bool, the field with the one-element
    list and the field with the value give the same result, the same
    failure included. *)
Theorem map_item_singleton_list py_repr self (fieldname : string) (v : pyval) :
  is_scalar v = true ->
  generateMapItemNode py_repr self fieldname (MPlain (PList [v]))
  = generateMapItemNode py_repr self fieldname (MPlain v).
Proof.
  intros Hv. unfold generateMapItemNode.
  destruct (_fieldMappingInEffect self) as [d|f].
  - destruct (d !! fieldname) as [[path|]|]; try reflexivity.
    by destruct v.
  - cbn. destruct (f fieldname) as [path|]; [| reflexivity]. by destruct v.
Qed.

Lemma map_item_singleton_list_witness :
  generateMapItemNode no_repr linux "exe" (MPlain (PList [PStr "*/sh"]))
  = Ok (PDict [("op", PStr "ends with"); ("path", PStr "event/FILE_PATH");
               ("value", PStr "/sh"); ("case sensitive", PBool false)]).
Proof.
  rewrite (map_item_singleton_list no_repr linux "exe" (PStr "*/sh") eq_refl).
  reflexivity.
Defined.

(** X8.  For a field that resolves to a path, a list of values gives one
    leaf per value, in the order of the list, alone when there is one
    and under [or] otherwise; the empty list gives an [or] with an
    empty rule list. *)
Theorem map_item_list py_repr self (fieldname path : string) (vs : list pyval) :
  resolves_to self fieldname path ->
  generateMapItemNode py_repr self fieldname (MPlain (PList vs))
  = Ok (match vs with
        | [v] => field_match py_repr self path v
        | _ => PDict [("op", PStr "or");
                      ("rules", PList (map (field_match py_repr self path) vs))]
        end) /\
  generateMapItemNode py_repr self fieldname (MPlain (PList []))
  = Ok (PDict [("op", PStr "or"); ("rules", PList [])]).
Proof.
  unfold resolves_to, generateMapItemNode.
  destruct (_fieldMappingInEffect self) as [d|f]; intros ->; cbn.
  - split; [| reflexivity]. by destruct vs as [|v [|v' vs']].
  - split; [| reflexivity]. by destruct vs as [|v [|v' vs']].
Qed.

Lemma map_item_list_witness :
  resolves_to linux "exe" "event/FILE_PATH" /\
  generateMapItemNode no_repr linux "exe" (MPlain (PList []))
  = Ok (PDict [("op", PStr "or"); ("rules", PList [])]).
Proof.
  split; [reflexivity |].
  apply (proj2 (map_item_list no_repr linux "exe" "event/FILE_PATH" [] eq_refl)).
Defined.

(** X9.  For a field that resolves to a path, the translation of the
    field fails exactly when the value is a typed modifier, the regular
    expression included, which [re.compile] rejects, or a plain value
    that is neither a string, an integer, a bool, a list nor [None]. *)
Theorem map_item_fails_on_unsupported py_repr self (fieldname path : string)
    (value : mapvalue) :
  resolves_to self fieldname path ->
  is_ok (generateMapItemNode py_repr self fieldname value) = supported_value value.
Proof.
  unfold resolves_to, generateMapItemNode.
  destruct (_fieldMappingInEffect self) as [d|f]; intros ->; cbn;
    destruct value as [[| | | |vs | |]| |]; try reflexivity;
    by destruct vs as [|v [|v' vs']].
Qed.

Lemma map_item_fails_on_unsupported_witness :
  resolves_to linux "exe" "event/FILE_PATH" /\
  is_ok (generateMapItemNode no_repr linux "exe" (MRegularExpression ".*/sh"))
  = false.
Proof.
  split; [reflexivity |].
  apply (map_item_fails_on_unsupported no_repr linux "exe" "event/FILE_PATH"
           (MRegularExpression ".*/sh") eq_refl).
Defined.

(** ** Invariants of the node translator *)

(** Induction on the expression tree, with the hypothesis for every
    child of an And, an Or and a List. *)
Lemma node_nested_ind (P : node -> Prop) :
  (forall items, Forall P items -> P (ConditionAND items)) ->
  (forall items, Forall P items -> P (ConditionOR items)) ->
  (forall item, P item -> P (ConditionNOT item)) ->
  (forall items, P items -> P (NodeSubexpression items)) ->
  (forall values, Forall P values -> P (NodeList values)) ->
  (forall fieldname value, P (NodeMapItem fieldname value)) ->
  (forall lit, P (NodeValue lit)) ->
  forall n, P n.
Proof.
  intros HAND HOR HNOT HSUB HLIST HMAP HVAL.
  fix IH 1. intros [items|items|item|items|values|fieldname value|lit].
  - apply HAND. induction items as [|n items IHitems]; constructor; [apply IH | exact IHitems].
  - apply HOR. induction items as [|n items IHitems]; constructor; [apply IH | exact IHitems].
  - apply HNOT, IH.
  - apply HSUB, IH.
  - apply HLIST. induction values as [|n values IHvalues]; constructor; [apply IH | exact IHvalues].
  - apply HMAP.
  - apply HVAL.
Qed.

(** A comprehension that raises does so at one of its elements. *)
Lemma comprehension_raise_inv {A B : Type} (f : A -> result B)
    (xs : list A) (e : exception) :
  comprehension f xs = Raise e -> Exists (fun x => f x = Raise e) xs.
Proof.
  induction xs as [|x xs IH]; [discriminate |].
  rewrite comprehension_cons.
  destruct (f x) as [y|e'] eqn:Hx.
  - cbn. destruct (comprehension f xs) as [ys|e'']; [discriminate |].
    cbn. intros [= ->]. right. by apply IH.
  - cbn. intros [= ->]. by left.
Qed.

(** What holds of every child's translation holds of the translations a
    comprehension over the children collects. *)
Lemma comprehension_Forall {A B : Type} (f : A -> result B) (Q : B -> Prop)
    (xs : list A) (ys : list B) :
  Forall (fun x => forall y, f x = Ok y -> Q y) xs ->
  comprehension f xs = Ok ys -> Forall Q ys.
Proof.
  intros Hall Hys. apply comprehension_Forall2 in Hys.
  induction Hys as [|x y xs ys Hxy Hrest IH]; [constructor |].
  inversion Hall as [|? ? Hx Hxs]; subst.
  constructor; [by apply Hx | by apply IH].
Qed.

Lemma not_none_Forall (Q : pyval -> Prop) (generated : list pyval) :
  Forall Q generated -> Forall Q (not_none generated).
Proof.
  intros Hall. unfold not_none. apply List.Forall_forall.
  intros g Hin. apply filter_In in Hin as [Hin _].
  by apply (proj1 (List.Forall_forall Q generated) Hall).
Qed.

Lemma compile_operator py_repr self (val : pyval) :
  In (fst (_valuePatternToLcOp py_repr self val)) compiler_operators.
Proof.
  unfold _valuePatternToLcOp, compiler_operators.
  destruct val; try (left; reflexivity).
  destruct (contains_star (slice_inner s)); [simpl; tauto |].
  destruct (endswith_star s), (startswith_star s); simpl; tauto.
Qed.

Lemma compiler_operators_lc (op : string) :
  In op compiler_operators -> In op lc_operators.
Proof. unfold lc_operators. intros Hop. apply in_or_app. by left. Qed.

Lemma field_match_shape py_repr self (path : string) (v : pyval) :
  node_shape (field_match py_repr self path v).
Proof.
  unfold field_match.
  pose proof (compile_operator py_repr self v) as Hop.
  destruct (_valuePatternToLcOp py_repr self v) as [op newVal].
  exists op. split; [reflexivity | by apply compiler_operators_lc].
Qed.

Lemma keyword_match_shape py_repr self (k v : pyval) :
  keyword_match py_repr self k = Ok v -> node_shape v.
Proof.
  unfold keyword_match.
  pose proof (compile_operator py_repr self k) as Hop.
  destruct (_valuePatternToLcOp py_repr self k) as [op newVal].
  destruct (keywords_path self) as [path|e]; [| discriminate].
  cbn. intros [= <-]. exists op. split; [reflexivity | by apply compiler_operators_lc].
Qed.

Lemma collapse_shape (op : string) (survivors : list pyval) :
  In op lc_operators -> Forall node_shape survivors ->
  node_shape (collapse op survivors).
Proof.
  intros Hop Hall. destruct survivors as [|g [|g' rest]].
  - exact I.
  - by inversion Hall.
  - exists op. by split.
Qed.

Lemma map_item_shape py_repr self (fieldname : string) (value : mapvalue)
    (v : pyval) :
  generateMapItemNode py_repr self fieldname value = Ok v -> node_shape v.
Proof.
  unfold generateMapItemNode, re_compile_modifier.
  destruct (_fieldMappingInEffect self) as [d|f];
    [destruct (d !! fieldname) as [[path|]|] | destruct (f fieldname) as [path|]];
    rewrite ?bind_Ok, ?bind_Raise; cbv beta iota;
    try discriminate; try (by intros [= <-]);
    (destruct value as [[| | | |vs| |]|pattern|cls];
     [ | | | |destruct vs as [|x [|x' vs']]; cbv zeta; cbn [map]| | | |]);
    rewrite ?bind_Raise; try discriminate;
    intros [= <-];
    first [apply field_match_shape | (eexists; split; [reflexivity | simpl; tauto])].
Qed.

(** The shape of the results, by induction on the tree. *)
Lemma node_shape_of_result py_repr self (n : node) (v : pyval) :
  generateNode py_repr self n = Ok v -> node_shape v.
Proof.
  revert v. induction n as [items IH|items IH|item IH|items IH|values IH|fieldname value|lit]
    using node_nested_ind; intros v.
  - rewrite generateNode_AND.
    destruct (comprehension _ items) as [generated|e] eqn:Hgen; [| discriminate].
    cbn. intros [= <-]. apply collapse_shape; [simpl; tauto |].
    apply not_none_Forall.
    exact (comprehension_Forall (generateNode py_repr self) node_shape
             items generated IH Hgen).
  - rewrite generateNode_OR. unfold generateORNode.
    destruct (comprehension _ items) as [generated|e] eqn:Hgen; [| discriminate].
    cbn -[comprehension].
    assert (Hsurv : Forall node_shape (not_none generated)).
    { apply not_none_Forall.
      exact (comprehension_Forall (generateNode py_repr self) node_shape
               items generated IH Hgen). }
    destruct (not_none generated) as [|first rest] eqn:Hnn; [by intros [= <-] |].
    assert (Hfinish : forall filtered, Forall node_shape filtered ->
      match filtered with
      | [single] => Ok single
      | _ => Ok (PDict [("op", PStr "or"); ("rules", PList filtered)])
      end = Ok v -> node_shape v).
    { intros filtered Hall.
      destruct filtered as [|g [|g' more]]; intros [= <-].
      - eexists. split; [reflexivity | simpl; tauto].
      - by inversion Hall.
      - eexists. split; [reflexivity | simpl; tauto]. }
    destruct first;
      try (intros Hv; exact (Hfinish (_ :: rest) Hsurv Hv)).
    destruct (_isKeywordsSupported self); cbn [negb]; [| discriminate].
    destruct (comprehension (keyword_match py_repr self) (PStr s :: rest))
      as [mapped|e] eqn:Hmapped; [| discriminate].
    intros Hv. refine (Hfinish mapped _ Hv).
    refine (comprehension_Forall (keyword_match py_repr self) node_shape
              (PStr s :: rest) mapped _ Hmapped).
    apply List.Forall_forall. intros k _ y. apply keyword_match_shape.
  - rewrite generateNode_NOT. unfold generateNOTNode.
    destruct (generateNode py_repr self item) as [g|e] eqn:Hg; [| discriminate].
    cbn. specialize (IH g eq_refl).
    destruct g; try discriminate; intros [= <-]; [exact I |].
    destruct IH as (op & Hop & Hin). exists op. split; [| exact Hin].
    rewrite dict_get_setitem_ne by discriminate. exact Hop.
  - exact (IH v).
  - cbn [generateNode]. unfold generateListNode.
    destruct (comprehension _ values) as [generated|e]; [| discriminate].
    cbn. by intros [= <-].
  - apply map_item_shape.
  - cbn. intros [= <-]. by destruct lit.
Qed.

(** X10.  Whatever the node translator returns is [None], a raw string
    or integer, a list, or a dict that has the key [op] with one of the
    eight operators is, starts with, ends with, contains, matches,
    exists, and, or; it never returns a bool or a compiled pattern, nor
    a dict without an operator. *)
Theorem generateNode_shape py_repr self (n : node) (v : pyval) :
  generateNode py_repr self n = Ok v -> node_shape v.
Proof. apply node_shape_of_result. Qed.

Lemma generateNode_shape_witness :
  generateNode no_repr linux
    (ConditionNOT (ConditionOR [NodeValue (LitStr "nc *"); NodeValue (LitInt 4444)]))
  = Ok (PDict [("op", PStr "or");
               ("rules", PList [
                  PDict [("op", PStr "starts with");
                         ("path", PStr "event/COMMAND_LINE");
                         ("value", PStr "nc ")];
                  PDict [("op", PStr "is");
                         ("path", PStr "event/COMMAND_LINE");
                         ("value", PInt 4444)]]);
               ("not", PBool true)]) /\
  node_shape (PDict [("op", PStr "or");
               ("rules", PList [
                  PDict [("op", PStr "starts with");
                         ("path", PStr "event/COMMAND_LINE");
                         ("value", PStr "nc ")];
                  PDict [("op", PStr "is");
                         ("path", PStr "event/COMMAND_LINE");
                         ("value", PInt 4444)]]);
               ("not", PBool true)]).
Proof.
  split; [reflexivity |].
  apply (generateNode_shape no_repr linux
           (ConditionNOT (ConditionOR [NodeValue (LitStr "nc *");
                                       NodeValue (LitInt 4444)]))).
  reflexivity.
Defined.

(** ** Failures of the node translator *)

Lemma comprehension_raise_Forall {A B : Type} (f : A -> result B)
    (Q : exception -> Prop) (xs : list A) (e : exception) :
  Forall (fun x => forall e, f x = Raise e -> Q e) xs ->
  comprehension f xs = Raise e -> Q e.
Proof.
  intros Hall Hraise. apply comprehension_raise_inv in Hraise.
  apply List.Exists_exists in Hraise as (x & Hin & Hx).
  exact (proj1 (List.Forall_forall _ xs) Hall x Hin e Hx).
Qed.

Lemma keywords_path_failure self (e : exception) :
  keywords_path self = Raise e ->
  e = KeyError "keywords" \/ e = TypeError "'function' object is not subscriptable".
Proof.
  unfold keywords_path. destruct (_fieldMappingInEffect self) as [d|f].
  - destruct (d !! "keywords"); [discriminate |]. intros [= <-]. by left.
  - intros [= <-]. by right.
Qed.

Lemma map_item_failure py_repr self (fieldname : string) (value : mapvalue)
    (e : exception) :
  generateMapItemNode py_repr self fieldname value = Raise e ->
  ((exists f, e = UnsupportedField f) \/ (exists cls, e = UnsupportedTypeModifier cls)
   \/ (exists v, e = UnsupportedValueType v)
   \/ e = TypeError "first argument must be string or compiled pattern") /\
  (match value with MRegularExpression _ => false | _ => true end = true ->
   designated_failure e = true).
Proof.
  unfold generateMapItemNode, re_compile_modifier.
  destruct (_fieldMappingInEffect self) as [d|f];
    [destruct (d !! fieldname) as [[path|]|] | destruct (f fieldname) as [path|]];
    rewrite ?bind_Ok, ?bind_Raise; cbv beta iota;
    try discriminate;
    try (intros [= <-]; split; [left; eauto | reflexivity]);
    (destruct value as [[| | | |vs| |]|pattern|cls];
     [ | | | |destruct vs as [|x [|x' vs']]; cbv zeta; cbn [map]| | | |]);
    rewrite ?bind_Raise; try discriminate;
    intros [= <-];
    (split; [eauto 6 | first [reflexivity | discriminate]]).
Qed.

(** The failures of the translator, by induction on the tree. *)
Lemma node_failures py_repr self (n : node) (e : exception) :
  generateNode py_repr self n = Raise e ->
  translator_failure e /\
  (keyword_safe self -> regex_free n = true -> designated_failure e = true).
Proof.
  assert (Hlist : forall items e,
    Forall (fun n => forall e, generateNode py_repr self n = Raise e ->
              translator_failure e /\
              (keyword_safe self -> regex_free n = true ->
               designated_failure e = true)) items ->
    comprehension (generateNode py_repr self) items = Raise e ->
    translator_failure e /\
    (keyword_safe self -> forallb regex_free items = true ->
     designated_failure e = true)).
  { intros items e0 IH Hraise. apply comprehension_raise_inv in Hraise.
    apply List.Exists_exists in Hraise as (x & Hin & Hx).
    destruct (proj1 (List.Forall_forall _ items) IH x Hin e0 Hx) as [Hform Hdes].
    split; [exact Hform |]. intros Hsafe Hfree. apply Hdes; [exact Hsafe |].
    by apply (proj1 (forallb_forall regex_free items) Hfree). }
  revert e. induction n as [items IH|items IH|item IH|items IH|values IH|fieldname value|lit]
    using node_nested_ind; intros e.
  - rewrite generateNode_AND.
    destruct (comprehension _ items) as [generated|e'] eqn:Hgen; [discriminate |].
    rewrite bind_Raise. intros [= <-]. exact (Hlist items e' IH Hgen).
  - rewrite generateNode_OR. unfold generateORNode.
    destruct (comprehension _ items) as [generated|e'] eqn:Hgen.
    + cbn -[comprehension].
      destruct (not_none generated) as [|first rest]; [discriminate |].
      destruct first; try (cbn; destruct rest; discriminate).
      destruct (_isKeywordsSupported self) eqn:Hkw; cbn [negb].
      * rewrite keyword_loop.
        destruct (keywords_path self) as [path|e'] eqn:Hpath;
          [cbn; destruct rest; discriminate |].
        cbn. intros [= <-]. split.
        -- unfold translator_failure.
           destruct (keywords_path_failure self e' Hpath) as [-> | ->]; tauto.
        -- intros [Hoff | (path & Hok)]; congruence.
      * cbn. intros [= <-]. split; [| reflexivity].
        unfold translator_failure. tauto.
    + rewrite bind_Raise. intros [= <-]. exact (Hlist items e' IH Hgen).
  - rewrite generateNode_NOT. unfold generateNOTNode.
    destruct (generateNode py_repr self item) as [g|e'] eqn:Hg.
    + cbn. destruct g; try discriminate; intros [= <-];
        (split; [unfold translator_failure; tauto | reflexivity]).
    + cbn. intros [= <-]. by apply IH.
  - exact (IH e).
  - cbn [generateNode]. unfold generateListNode.
    destruct (comprehension _ values) as [generated|e'] eqn:Hgen; [discriminate |].
    rewrite bind_Raise. intros [= <-]. exact (Hlist values e' IH Hgen).
  - intros Hraise.
    destruct (map_item_failure py_repr self fieldname value e Hraise) as [Hform Hdes].
    split; [unfold translator_failure; tauto |].
    intros _ Hfree. apply Hdes. cbn in Hfree. by destruct value.
  - discriminate.
Qed.

(** X11.  When the node translator fails, the exception is one of the
    five failures the handlers raise themselves (field, keyword search,
    negation, typed modifier, value type), one of the two the keyword
    lookup of the Or handler throws, or the one [re.compile] throws on
    a regular expression modifier; and in a context where the keyword
    lookup cannot fail, on a tree without a regular expression
    modifier, it is one of the five. *)
Theorem generateNode_failures py_repr self (n : node) (e : exception) :
  generateNode py_repr self n = Raise e ->
  translator_failure e /\
  (keyword_safe self -> regex_free n = true -> designated_failure e = true).
Proof. apply node_failures. Qed.

Lemma generateNode_failures_witness :
  generateNode no_repr linux
    (ConditionAND [NodeMapItem "exe" (MPlain (PStr "/bin/sh"));
                   NodeMapItem "exe" (MRegularExpression ".*/sh")])
  = Raise (TypeError "first argument must be string or compiled pattern") /\
  translator_failure (TypeError "first argument must be string or compiled pattern") /\
  keyword_safe linux /\
  regex_free (ConditionNOT (NodeList [NodeValue (LitStr "nc")])) = true /\
  generateNode no_repr linux (ConditionNOT (NodeList [NodeValue (LitStr "nc")]))
  = Raise UnsupportedNegation /\
  designated_failure UnsupportedNegation = true.
Proof.
  assert (Hsafe : keyword_safe linux) by (right; eexists; reflexivity).
  split; [reflexivity |]. split.
  - apply (generateNode_failures no_repr linux
             (ConditionAND [NodeMapItem "exe" (MPlain (PStr "/bin/sh"));
                            NodeMapItem "exe" (MRegularExpression ".*/sh")])).
    reflexivity.
  - split; [exact Hsafe |]. split; [reflexivity |]. split; [reflexivity |].
    apply (proj2 (generateNode_failures no_repr linux
                    (ConditionNOT (NodeList [NodeValue (LitStr "nc")]))
                    UnsupportedNegation eq_refl) Hsafe).
    reflexivity.
Defined.

(** The entries of the registry, one by one. *)
Lemma registry_cases (key : string) (cfg : SigmaLCConfig) :
  _allFieldMappings !! key = Some cfg ->
  (key = "netflow//" /\ cfg = netflow_connections) \/
  (key <> "netflow//" /\
   In cfg [windows_process_creation; windows_event_log; dns_requests;
           linux_processes]).
Proof.
  intros Hlookup. apply elem_of_list_to_map_2 in Hlookup.
  repeat (apply elem_of_cons in Hlookup as [[= -> ->] | Hlookup]);
    try (right; split; [discriminate | simpl; tauto]).
  - left. by split.
  - by apply elem_of_nil in Hlookup.
Qed.

(** X12.  Under every entry of the registry other than [netflow//], on
    a tree without a regular expression modifier, a failure of the node
    translator is one of the failures the backend raises on purpose. *)
Theorem registry_failures_designated py_repr (key : string) (cfg : SigmaLCConfig)
    (n : node) (e : exception) :
  _allFieldMappings !! key = Some cfg -> key <> "netflow//" ->
  regex_free n = true ->
  generateNode py_repr (backend_of cfg) n = Raise e ->
  designated_failure e = true.
Proof.
  intros Hlookup Hkey Hfree Hraise.
  apply (node_failures py_repr (backend_of cfg) n e Hraise); [| exact Hfree].
  destruct (registry_cases key cfg Hlookup) as [[-> _] | [_ Hcfg]]; [done |].
  simpl in Hcfg.
  destruct Hcfg as [<- | [<- | [<- | [<- | []]]]];
    first [by left | right; eexists; reflexivity].
Qed.

Lemma registry_failures_designated_witness :
  _allFieldMappings !! "unix//" = Some linux_processes /\
  regex_free (ConditionNOT (NodeValue (LitStr "nc"))) = true /\
  generateNode no_repr (backend_of linux_processes)
    (ConditionNOT (NodeValue (LitStr "nc"))) = Raise UnsupportedNegation /\
  designated_failure UnsupportedNegation = true.
Proof.
  split; [reflexivity |]. split; [reflexivity |]. split; [reflexivity |].
  apply (registry_failures_designated no_repr "unix//" linux_processes
           (ConditionNOT (NodeValue (LitStr "nc"))));
    [reflexivity | discriminate | reflexivity | reflexivity].
Defined.

(** ** Negation *)

Lemma dict_setitem_idem (d : pydict) (k : string) (v : pyval) :
  dict_setitem (dict_setitem d k v) k v = dict_setitem d k v.
Proof.
  induction d as [|[k0 v0] d IH]; simpl.
  - by rewrite String.eqb_refl.
  - destruct (String.eqb k0 k) eqn:Hk; simpl; rewrite Hk; [reflexivity | by rewrite IH].
Qed.

(** X13.  The Not handler sets the negation and never removes it: a Not
    over a Not translates as the one Not does, and a Not over a field
    that must not exist translates as that field alone does. *)
Theorem not_sets_never_toggles py_repr self :
  (forall child,
     generateNode py_repr self (ConditionNOT (ConditionNOT child))
     = generateNode py_repr self (ConditionNOT child)) /\
  (forall fieldname,
     generateNode py_repr self (ConditionNOT (NodeMapItem fieldname (MPlain PNone)))
     = generateNode py_repr self (NodeMapItem fieldname (MPlain PNone))).
Proof.
  split.
  - intros child. rewrite (generateNode_NOT _ _ (ConditionNOT child)).
    unfold generateNOTNode at 1. rewrite generateNode_NOT. unfold generateNOTNode.
    destruct (generateNode py_repr self child) as [g|e]; [| reflexivity].
    destruct g; try reflexivity. cbn. by rewrite dict_setitem_idem.
  - intros fieldname. rewrite generateNode_NOT. unfold generateNOTNode.
    cbn [generateNode]. unfold generateMapItemNode.
    destruct (_fieldMappingInEffect self) as [d|f].
    + by destruct (d !! fieldname) as [[path|]|].
    + cbn. by destruct (f fieldname) as [path|].
Qed.

(** ** The assembled document *)

Lemma dict_get_absent (d : pydict) (k : string) :
  ~ In k (dict_keys d) -> dict_get d k = None.
Proof.
  induction d as [|[k0 v0] d IH]; [reflexivity |].
  simpl. intros Hnot. destruct (String.eqb k0 k) eqn:Hk.
  - apply String.eqb_eq in Hk. destruct Hnot. by left.
  - apply IH. intros Hin. apply Hnot. by right.
Qed.

(** [d.update(other)] read back: a key of [other] has the value of
    [other], any other key the value it had. *)
Lemma dict_get_update (d other : pydict) (k : string) :
  List.NoDup (dict_keys other) ->
  dict_get (dict_update d other) k
  = match dict_get other k with
    | Some v => Some v
    | None => dict_get d k
    end.
Proof.
  unfold dict_update. revert d.
  induction other as [|[k0 v0] other IH]; intros d Hnodup; [reflexivity |].
  inversion Hnodup as [|? ? Hfresh Hrest]; subst.
  cbn [fold_left fst snd]. rewrite IH by exact Hrest.
  cbn [dict_get]. destruct (String.eqb k0 k) eqn:Hk.
  - apply String.eqb_eq in Hk. subst k0.
    rewrite (dict_get_absent other k Hfresh). apply dict_get_setitem_eq.
  - destruct (dict_get other k); [reflexivity |].
    apply dict_get_setitem_ne. intros ->. by rewrite String.eqb_refl in Hk.
Qed.

(** ** The dumper *)

Lemma string_leb_refl (a : string) : String.leb a a = true.
Proof. by destruct (String.leb_total a a). Qed.

Lemma sort_keys_dict (items : pydict) :
  sort_keys (PDict items) = PDict (sort_items (map sort_entry items)).
Proof. reflexivity. Qed.

(** Sorting moves no entry before another one with the same key, so a
    lookup finds what it found. *)
Lemma dict_get_insert_item (kv : string * pyval) (l : pydict) (k : string) :
  dict_get (insert_item kv l) k = dict_get (kv :: l) k.
Proof.
  destruct kv as [k0 v0]. induction l as [|[k1 v1] l IH]; [reflexivity |].
  cbn [insert_item fst]. destruct (String.leb k0 k1) eqn:Hle; [reflexivity |].
  cbn [dict_get] in *. rewrite IH.
  destruct (String.eqb k1 k) eqn:H1, (String.eqb k0 k) eqn:H0; try reflexivity.
  apply String.eqb_eq in H1, H0. subst.
  by rewrite string_leb_refl in Hle.
Qed.

Lemma dict_get_sort_items (l : pydict) (k : string) :
  dict_get (sort_items l) k = dict_get l k.
Proof.
  induction l as [|[k0 v0] l IH]; [reflexivity |].
  cbn [sort_items fold_right]. rewrite dict_get_insert_item.
  cbn [dict_get]. fold (sort_items l). by rewrite IH.
Qed.

Lemma dict_get_sort_entries (l : pydict) (k : string) :
  dict_get (map sort_entry l) k = sort_keys <$> dict_get l k.
Proof.
  induction l as [|[k0 v0] l IH]; [reflexivity |].
  cbn [map sort_entry dict_get]. by destruct (String.eqb k0 k).
Qed.

(** A lookup in a dumped dict gives the dumped value. *)
Lemma dict_get_sorted (l : pydict) (k : string) :
  dict_get (sort_items (map sort_entry l)) k = sort_keys <$> dict_get l k.
Proof. by rewrite dict_get_sort_items, dict_get_sort_entries. Qed.

Lemma insert_item_sorted (kv : string * pyval) (l : pydict) :
  sorted_by_key l = true -> sorted_by_key (insert_item kv l) = true.
Proof.
  induction l as [|kv1 l IH]; [reflexivity |].
  intros Hl. cbn [insert_item]. destruct (String.leb (fst kv) (fst kv1)) eqn:Hle.
  - change (String.leb (fst kv) (fst kv1) && sorted_by_key (kv1 :: l) = true).
    by rewrite Hle, Hl.
  - assert (Hge : String.leb (fst kv1) (fst kv) = true).
    { destruct (String.leb_total (fst kv1) (fst kv)) as [H | H]; [exact H | congruence]. }
    assert (Hrest : sorted_by_key l = true).
    { destruct l as [|kv2 l']; [reflexivity |].
      cbn [sorted_by_key] in Hl. by apply andb_true_iff in Hl as [_ Hl]. }
    specialize (IH Hrest).
    destruct l as [|kv2 l'].
    + cbn. by rewrite Hge.
    + cbn [insert_item] in IH |- *.
      cbn [sorted_by_key] in Hl. apply andb_true_iff in Hl as [H12 _].
      destruct (String.leb (fst kv) (fst kv2)).
      * change (String.leb (fst kv1) (fst kv) && sorted_by_key (kv :: kv2 :: l') = true).
        by rewrite Hge, IH.
      * change (String.leb (fst kv1) (fst kv2)
                && sorted_by_key (kv2 :: insert_item kv l') = true).
        by rewrite H12, IH.
Qed.

Lemma sort_items_sorted (l : pydict) : sorted_by_key (sort_items l) = true.
Proof.
  induction l as [|kv l IH]; [reflexivity |].
  cbn [sort_items fold_right]. by apply insert_item_sorted.
Qed.

(** Sorting a dict whose keys are in order changes nothing. *)
Lemma sort_items_of_sorted (l : pydict) :
  sorted_by_key l = true -> sort_items l = l.
Proof.
  induction l as [|kv l IH]; [reflexivity |].
  intros Hl. cbn [sort_items fold_right]. fold (sort_items l).
  destruct l as [|kv1 l']; [reflexivity |].
  cbn [sorted_by_key] in Hl. apply andb_true_iff in Hl as [Hle Hrest].
  rewrite (IH Hrest). cbn [insert_item]. by rewrite Hle.
Qed.

Lemma sort_entry_fst (kv : string * pyval) : fst (sort_entry kv) = fst kv.
Proof. by destruct kv. Qed.

Lemma sort_items_entries (g : string * pyval -> string * pyval) (l : pydict) :
  (forall kv, fst (g kv) = fst kv) ->
  sort_items (map g l) = map g (sort_items l).
Proof.
  intros Hg.
  assert (Hins : forall kv l', insert_item (g kv) (map g l') = map g (insert_item kv l')).
  { intros kv l'. induction l' as [|kv1 l' IH]; [reflexivity |].
    cbn [map insert_item]. rewrite !Hg.
    destruct (String.leb (fst kv) (fst kv1)); [reflexivity |]. by rewrite IH. }
  induction l as [|kv l IH]; [reflexivity |].
  cbn [map sort_items fold_right]. fold (sort_items (map g l)) (sort_items l).
  by rewrite IH, Hins.
Qed.

(** Induction on a Python value, with the hypothesis for every item of
    a list and every value of a dict. *)
Lemma pyval_nested_ind (P : pyval -> Prop) :
  P PNone -> (forall b, P (PBool b)) -> (forall z, P (PInt z)) ->
  (forall s, P (PStr s)) ->
  (forall items, Forall P items -> P (PList items)) ->
  (forall items, Forall (fun kv => P (snd kv)) items -> P (PDict items)) ->
  (forall source, P (PPattern source)) ->
  forall v, P v.
Proof.
  intros HNone HBool HInt HStr HList HDict HPattern.
  fix IH 1. intros [|b|z|s|items|items|source].
  - exact HNone.
  - apply HBool.
  - apply HInt.
  - apply HStr.
  - apply HList. induction items as [|x items IHitems]; constructor;
      [apply IH | exact IHitems].
  - apply HDict. induction items as [|[k x] items IHitems]; constructor;
      [apply IH | exact IHitems].
  - apply HPattern.
Qed.

(** Dumping what was dumped changes nothing. *)
Lemma sort_keys_idem (v : pyval) : sort_keys (sort_keys v) = sort_keys v.
Proof.
  induction v as [| | | |items IH|items IH|] using pyval_nested_ind;
    try reflexivity.
  - cbn [sort_keys]. f_equal. rewrite map_map.
    apply map_ext_in. intros x Hx.
    exact (proj1 (List.Forall_forall _ items) IH x Hx).
  - rewrite !sort_keys_dict. f_equal.
    rewrite <- (sort_items_entries sort_entry) by apply sort_entry_fst.
    rewrite map_map.
    assert (Hmap : map (fun kv => sort_entry (sort_entry kv)) items
                   = map sort_entry items).
    { apply map_ext_in. intros [k x] Hx. cbn [sort_entry]. f_equal.
      exact (proj1 (List.Forall_forall _ items) IH (k, x) Hx). }
    rewrite Hmap. apply sort_items_of_sorted, sort_items_sorted.
Qed.

Lemma safe_dump_cases (v : pyval) :
  safe_dump v = Ok (YamlOf (sort_keys v)) \/ safe_dump v = Raise RepresenterError.
Proof. unfold safe_dump. destruct (representable v); tauto. Qed.

Lemma node_shape_sort_keys (v : pyval) : node_shape v -> node_shape (sort_keys v).
Proof.
  destruct v; try done. intros (op & Hop & Hin).
  rewrite sort_keys_dict. exists op. split; [| exact Hin].
  by rewrite dict_get_sorted, Hop.
Qed.

(** The query generator fails as the node translator does, or in the
    dumper. *)
Lemma generateQuery_failures py_repr self (parsed : node) (e : exception) :
  generateQuery py_repr self parsed = Raise e ->
  translator_failure e \/ e = RepresenterError.
Proof.
  unfold generateQuery.
  destruct (generateNode py_repr self parsed) as [r|e'] eqn:Hr.
  - rewrite bind_Ok.
    match goal with |- safe_dump ?w = _ -> _ =>
      destruct (safe_dump_cases w) as [-> | ->] end;
      [discriminate | intros [= <-]; tauto].
  - rewrite bind_Raise. intros [= <-]. left.
    apply (node_failures py_repr self parsed e' Hr).
Qed.

(** The exceptions the assembler can end with once a mapping context is
    found. *)
Lemma assemble_failures py_repr self (topFilter : pydict) (sp : SigmaParser)
    (e : exception) :
  assemble py_repr self topFilter sp = Raise e ->
  translator_failure e \/ e = MalformedSelection \/ e = KeyError "title"
  \/ e = RepresenterError.
Proof.
  unfold assemble, BaseBackend_generate.
  destruct (generateQuery py_repr self (parsedSearch sp)) as [text|e'] eqn:Hq.
  - rewrite bind_Ok.
    destruct (safe_load text); try (intros [= <-]; tauto).
    destruct (parsedyaml sp !! "title");
      [rewrite bind_Ok | rewrite bind_Raise; intros [= <-]; tauto].
    match goal with |- safe_dump ?w = _ -> _ =>
      destruct (safe_dump_cases w) as [-> | ->] end;
      [discriminate | intros [= <-]; tauto].
  - rewrite bind_Raise. intros [= <-].
    destruct (generateQuery_failures py_repr self _ e' Hq); tauto.
Qed.

Lemma translator_failure_not_malformed (e : exception) :
  translator_failure e -> e <> MalformedSelection.
Proof.
  unfold translator_failure.
  intros [(f & ->) | [-> | [-> | [(cls & ->) | [(v & ->) | [-> | [-> | ->]]]]]]];
    discriminate.
Qed.

Lemma translator_failure_not_log_source (e : exception) (p c s : string) :
  translator_failure e -> e <> UnsupportedLogSource p c s.
Proof.
  unfold translator_failure.
  intros [(f & ->) | [-> | [-> | [(cls & ->) | [(v & ->) | [-> | [-> | ->]]]]]]];
    discriminate.
Qed.

(** X14.  Without a precondition, a root that translates to [None], to a
    raw string or to an integer (a field the table drops, a bare
    keyword) makes [generate] raise the selection failure. *)
Theorem generate_rejects_raw_root py_repr (instance : option backend)
    (sp : SigmaParser) (cfg : SigmaLCConfig) (v : pyval) :
  _allFieldMappings !! mappingKey sp = Some cfg ->
  preConditions cfg = PNone ->
  generateNode py_repr (backend_of cfg) (parsedSearch sp) = Ok v ->
  is_raw v = true ->
  fst (generate py_repr instance sp) = Raise MalformedSelection.
Proof.
  intros Hlookup Hpre Hroot Hraw. unfold generate. rewrite Hlookup.
  cbn [fst]. unfold assemble, BaseBackend_generate, generateQuery.
  change {| _fieldMappingInEffect := fieldMappings cfg;
            _preCondition := preConditions cfg;
            _isAllStringValues := isAllStringValues cfg;
            _isKeywordsSupported := isKeywordsSupported cfg |}
    with (backend_of cfg).
  rewrite Hroot, bind_Ok. cbn [_preCondition backend_of]. rewrite Hpre.
  cbn [is_none negb].
  assert (Hdump : safe_dump v = Ok (YamlOf v)) by (by destruct v).
  rewrite Hdump, bind_Ok. by destruct v.
Qed.

Lemma generate_rejects_raw_root_witness :
  _allFieldMappings !! mappingKey dns_keyword_rule = Some dns_requests /\
  generateNode no_repr (backend_of dns_requests) (parsedSearch dns_keyword_rule)
    = Ok (PStr "evil.example") /\
  fst (generate no_repr None dns_keyword_rule) = Raise MalformedSelection.
Proof.
  split; [reflexivity |]. split; [reflexivity |].
  apply (generate_rejects_raw_root no_repr None dns_keyword_rule dns_requests
           (PStr "evil.example")); reflexivity.
Defined.

(** X15.  With a precondition [generate] never raises the selection
    failure: whatever the root translates to is put under the
    and-wrapper, which is a dict. *)
Theorem generate_precondition_never_malformed py_repr (instance : option backend)
    (sp : SigmaParser) (cfg : SigmaLCConfig) :
  _allFieldMappings !! mappingKey sp = Some cfg ->
  is_none (preConditions cfg) = false ->
  fst (generate py_repr instance sp) <> Raise MalformedSelection.
Proof.
  intros Hlookup Hpre. unfold generate. rewrite Hlookup. cbn [fst].
  unfold assemble, BaseBackend_generate, generateQuery. cbn [_preCondition].
  rewrite Hpre. cbn [negb].
  destruct (generateNode py_repr _ (parsedSearch sp)) as [r|e'] eqn:Hr.
  - rewrite bind_Ok.
    match goal with |- context [safe_dump ?w ≫= _] =>
      destruct (safe_dump_cases w) as [-> | ->] end;
      [rewrite bind_Ok | rewrite bind_Raise; discriminate].
    cbn [safe_load]. rewrite sort_keys_dict. cbv beta iota.
    destruct (parsedyaml sp !! "title");
      [rewrite bind_Ok | rewrite bind_Raise; discriminate].
    match goal with |- safe_dump ?w <> _ =>
      destruct (safe_dump_cases w) as [-> | ->] end; discriminate.
  - rewrite !bind_Raise. intros [= ->].
    by apply (translator_failure_not_malformed MalformedSelection
                (proj1 (node_failures py_repr _ _ _ Hr))).
Qed.

Lemma generate_precondition_never_malformed_witness :
  _allFieldMappings !! mappingKey linux_rule = Some linux_processes /\
  fst (generate no_repr None linux_rule) <> Raise MalformedSelection.
Proof.
  split; [reflexivity |].
  apply (generate_precondition_never_malformed no_repr None linux_rule
           linux_processes); reflexivity.
Defined.

(** X16.  [generate] raises the log-source failure only when the
    registry has no entry under the lookup key: once a mapping context
    is found, no failure of the translation is the log-source failure. *)
Theorem generate_log_source_failure_iff py_repr (instance : option backend)
    (sp : SigmaParser) :
  (exists product category service,
     fst (generate py_repr instance sp)
     = Raise (UnsupportedLogSource product category service)) <->
  _allFieldMappings !! mappingKey sp = None.
Proof.
  unfold generate. split.
  - intros (p & c & s & Hraise).
    destruct (_allFieldMappings !! mappingKey sp) as [cfg|]; [| reflexivity].
    cbn [fst] in Hraise. exfalso.
    destruct (assemble_failures _ _ _ _ _ Hraise) as [Hf | [Hm | [Ht | Hr]]];
      [by apply (translator_failure_not_log_source _ p c s) in Hf
      | discriminate | discriminate | discriminate].
  - intros ->. eauto.
Qed.

Lemma generateQuery_shape py_repr self (parsed : node) (v : pyval) :
  generateQuery py_repr self parsed = Ok (YamlOf v) ->
  node_shape v /\ sort_keys v = v.
Proof.
  unfold generateQuery.
  destruct (generateNode py_repr self parsed) as [r|e] eqn:Hr;
    [rewrite bind_Ok | discriminate].
  match goal with |- safe_dump ?w = _ -> _ =>
    destruct (safe_dump_cases w) as [-> | ->] end; [| discriminate].
  intros [= <-]. split; [| apply sort_keys_idem].
  apply node_shape_sort_keys. destruct (negb (is_none (_preCondition self))).
  - eexists. split; [reflexivity | simpl; tauto].
  - by apply (node_shape_of_result py_repr self parsed).
Qed.

(** The top-level parameters of the registry entries: no key twice,
    never the key [op], and values the dumper writes as they are. *)
Lemma registry_top_level_params (key : string) (cfg : SigmaLCConfig) :
  _allFieldMappings !! key = Some cfg ->
  List.NoDup (dict_keys (topLevelParams cfg)) /\
  dict_get (topLevelParams cfg) "op" = None /\
  Forall (fun kv => sort_keys (snd kv) = snd kv) (topLevelParams cfg).
Proof.
  intros Hlookup.
  assert (Hcfg : In cfg [netflow_connections; windows_process_creation;
                         windows_event_log; dns_requests; linux_processes]).
  { destruct (registry_cases key cfg Hlookup) as [[_ ->] | [_ Hin]];
      [by left | by right]. }
  simpl in Hcfg.
  destruct Hcfg as [<- | [<- | [<- | [<- | [<- | []]]]]];
    (split; [| split; [reflexivity | repeat constructor]]);
    repeat (constructor; [simpl; intuition discriminate |]); constructor.
Qed.

Lemma dict_get_Forall (Q : pyval -> Prop) (l : pydict) (k : string) (v : pyval) :
  Forall (fun kv => Q (snd kv)) l -> dict_get l k = Some v -> Q v.
Proof.
  induction l as [|[k0 v0] l IH]; [discriminate |].
  intros Hall. inversion Hall as [|? ? H0 Hrest]; subst.
  cbn [dict_get]. destruct (String.eqb k0 k); [by intros [= <-] | by apply IH].
Qed.

(** X17.  When [generate] returns a document, its detect component is
    the translated query with the top-level parameters of the registry
    entry merged in: every parameter is there with its value, every
    other key is as the query generator left it, and the operator of the
    query is still there, one of the eight the translator writes. *)
Theorem generate_detect_component py_repr (instance : option backend)
    (sp : SigmaParser) (cfg : SigmaLCConfig) (text : yaml_text) :
  _allFieldMappings !! mappingKey sp = Some cfg ->
  fst (generate py_repr instance sp) = Ok text ->
  exists translated detect respond,
    generateQuery py_repr (backend_of cfg) (parsedSearch sp)
    = Ok (YamlOf (PDict translated)) /\
    safe_load text = PDict [("detect", PDict detect); ("respond", respond)] /\
    (forall k v, dict_get (topLevelParams cfg) k = Some v ->
                 dict_get detect k = Some v) /\
    (forall k, dict_get (topLevelParams cfg) k = None ->
               dict_get detect k = dict_get translated k) /\
    (exists op, dict_get detect "op" = Some (PStr op) /\ In op lc_operators).
Proof.
  intros Hlookup Hgen.
  destruct (registry_top_level_params _ cfg Hlookup) as (Hnodup & Hop & Hvalues).
  unfold generate in Hgen. rewrite Hlookup in Hgen. cbn [fst] in Hgen.
  unfold assemble, BaseBackend_generate in Hgen.
  change {| _fieldMappingInEffect := fieldMappings cfg;
            _preCondition := preConditions cfg;
            _isAllStringValues := isAllStringValues cfg;
            _isKeywordsSupported := isKeywordsSupported cfg |}
    with (backend_of cfg) in Hgen.
  destruct (generateQuery py_repr (backend_of cfg) (parsedSearch sp))
    as [[doc]|e] eqn:Hq; [rewrite bind_Ok in Hgen | discriminate].
  cbn [safe_load] in Hgen.
  destruct doc as [| | | | |translated|]; try discriminate.
  destruct (parsedyaml sp !! "title") as [title|];
    [rewrite bind_Ok in Hgen | discriminate].
  match type of Hgen with safe_dump ?w = _ =>
    destruct (safe_dump_cases w) as [Hdump | Hdump]; rewrite Hdump in Hgen end;
    [| discriminate].
  injection Hgen as <-.
  destruct (generateQuery_shape py_repr _ _ _ Hq) as [(op & Hshape & Hin) Hsorted].
  rewrite sort_keys_dict in Hsorted. injection Hsorted as Hsorted.
  assert (Hvalue : forall k, sort_keys <$> dict_get translated k
                             = dict_get translated k).
  { intros k. by rewrite <- (dict_get_sorted translated k), Hsorted. }
  exists translated,
    (sort_items (map sort_entry (dict_update translated (topLevelParams cfg)))),
    (sort_keys (PList (respondComponents (parsedyaml sp) title))).
  split; [reflexivity |]. split; [reflexivity |]. split; [| split].
  - intros k v Hk. rewrite dict_get_sorted, dict_get_update by exact Hnodup.
    rewrite Hk. cbn. f_equal.
    exact (dict_get_Forall (fun v => sort_keys v = v) _ k v Hvalues Hk).
  - intros k Hk. rewrite dict_get_sorted, dict_get_update by exact Hnodup.
    rewrite Hk. apply Hvalue.
  - exists op. split; [| exact Hin].
    rewrite dict_get_sorted, dict_get_update by exact Hnodup.
    by rewrite Hop, Hvalue.
Qed.

Lemma generate_detect_component_witness :
  _allFieldMappings !! mappingKey dns_rule = Some dns_requests /\
  fst (generate no_repr None dns_rule)
  = Ok (YamlOf (PDict [
      ("detect", PDict [
         ("case sensitive", PBool false); ("event", PStr "DNS_REQUEST");
         ("op", PStr "ends with"); ("path", PStr "event/DOMAIN_NAME");
         ("value", PStr ".example")]);
      ("respond", PList [PDict [("action", PStr "report");
                                ("name", PStr "T1")]])])) /\
  exists translated detect respond,
    generateQuery no_repr (backend_of dns_requests) (parsedSearch dns_rule)
    = Ok (YamlOf (PDict translated)) /\
    safe_load (YamlOf (PDict [
      ("detect", PDict [
         ("case sensitive", PBool false); ("event", PStr "DNS_REQUEST");
         ("op", PStr "ends with"); ("path", PStr "event/DOMAIN_NAME");
         ("value", PStr ".example")]);
      ("respond", PList [PDict [("action", PStr "report");
                                ("name", PStr "T1")]])]))
    = PDict [("detect", PDict detect); ("respond", respond)] /\
    (forall k v, dict_get (topLevelParams dns_requests) k = Some v ->
                 dict_get detect k = Some v) /\
    (forall k, dict_get (topLevelParams dns_requests) k = None ->
               dict_get detect k = dict_get translated k) /\
    (exists op, dict_get detect "op" = Some (PStr op) /\ In op lc_operators).
Proof.
  split; [reflexivity |]. split; [reflexivity |].
  apply (generate_detect_component no_repr None dns_rule dns_requests);
    reflexivity.
Defined.

(** ** The translated pattern *)

Lemma wildcard_regex_chars (s : string) (i : nat) :
  String.get i (wildcard_regex s) <> Some qmark /\
  (String.get i (wildcard_regex s) = Some star ->
   exists j, i = S j /\ String.get j (wildcard_regex s) = Some "."%char).
Proof.
  revert i. induction s as [|c rest IH]; intros i.
  - destruct i; simpl; split; discriminate.
  - cbn [wildcard_regex].
    destruct (Ascii.eqb c star) eqn:Hstar;
      [| destruct (Ascii.eqb c qmark) eqn:Hq;
         [| destruct (in_escape_class c
                      || (Ascii.eqb c backslash && lookahead_not_wildcard rest))]].
    + destruct i as [|[|i]]; cbn [String.get].
      * split; discriminate.
      * split; [discriminate |]. intros _. by exists 0.
      * destruct (IH i) as [Hno Hdot]. split; [exact Hno |].
        intros Hi. destruct (Hdot Hi) as (j & -> & Hj). by exists (S (S j)).
    + destruct i as [|i]; cbn [String.get].
      * split; discriminate.
      * destruct (IH i) as [Hno Hdot]. split; [exact Hno |].
        intros Hi. destruct (Hdot Hi) as (j & -> & Hj). by exists (S j).
    + destruct i as [|[|i]]; cbn [String.get].
      * split; discriminate.
      * split; intros [= ->]; [by rewrite Ascii.eqb_refl in Hq
                              | by rewrite Ascii.eqb_refl in Hstar].
      * destruct (IH i) as [Hno Hdot]. split; [exact Hno |].
        intros Hi. destruct (Hdot Hi) as (j & -> & Hj). by exists (S (S j)).
    + destruct i as [|i]; cbn [String.get].
      * split; intros [= ->]; [by rewrite Ascii.eqb_refl in Hq
                              | by rewrite Ascii.eqb_refl in Hstar].
      * destruct (IH i) as [Hno Hdot]. split; [exact Hno |].
        intros Hi. destruct (Hdot Hi) as (j & -> & Hj). by exists (S j).
Qed.

(** X18.  A pattern returned with the operator [matches] holds no [?],
    and every [*] in it stands right after a dot: no wildcard of the
    value is left as it was written. *)
Theorem compile_matches_pattern py_repr self (s p : string) :
  _valuePatternToLcOp py_repr self (PStr s) = ("matches", PStr p) ->
  (forall i, String.get i p <> Some qmark) /\
  (forall i, String.get i p = Some star ->
   exists j, i = S j /\ String.get j p = Some "."%char).
Proof.
  unfold _valuePatternToLcOp.
  destruct (contains_star (slice_inner s)).
  - rewrite sub_passes_one_pass. intros [= <-].
    split; intros i; apply wildcard_regex_chars.
  - destruct (endswith_star s && startswith_star s); [discriminate |].
    destruct (endswith_star s); [discriminate |].
    destruct (startswith_star s); discriminate.
Qed.

Lemma compile_matches_pattern_witness :
  _valuePatternToLcOp no_repr linux (PStr "a?c*e?") = ("matches", PStr "a.c.*e.") /\
  String.get 4 "a.c.*e." = Some star /\
  exists j, 4 = S j /\ String.get j "a.c.*e." = Some "."%char.
Proof.
  split; [reflexivity |]. split; [reflexivity |].
  apply (proj2 (compile_matches_pattern no_repr linux "a?c*e?" "a.c.*e." eq_refl) 4).
  reflexivity.
Defined.

(** ** Lists and rule lists *)

(** X19.  A List node gives a list with one entry for each of its
    values, in their order, a dropped value being kept as [None]; so it
    is never [None] itself, and a Not over a List node always fails. *)
Theorem list_node_keeps_every_value py_repr self (values : list node) :
  (forall v, generateNode py_repr self (NodeList values) = Ok v ->
   exists generated,
     v = PList generated /\
     Forall2 (fun n g => generateNode py_repr self n = Ok g) values generated /\
     length generated = length values) /\
  is_ok (generateNode py_repr self (ConditionNOT (NodeList values))) = false.
Proof.
  split.
  - intros v. cbn [generateNode]. unfold generateListNode.
    destruct (comprehension _ values) as [generated|e] eqn:Hgen; [| discriminate].
    rewrite bind_Ok. intros [= <-]. exists generated.
    apply comprehension_Forall2 in Hgen. split; [reflexivity |].
    split; [exact Hgen |]. symmetry. by apply (List.Forall2_length Hgen).
  - rewrite generateNode_NOT. unfold generateNOTNode.
    cbn [generateNode]. unfold generateListNode.
    by destruct (comprehension _ values).
Qed.

Lemma list_node_keeps_every_value_witness :
  generateNode no_repr linux
    (NodeList [NodeMapItem "type" (MPlain (PStr "EXECVE")); NodeValue (LitInt 1)])
  = Ok (PList [PNone; PInt 1]) /\
  exists generated,
    PList [PNone; PInt 1] = PList generated /\
    Forall2 (fun n g => generateNode no_repr linux n = Ok g)
      [NodeMapItem "type" (MPlain (PStr "EXECVE")); NodeValue (LitInt 1)]
      generated /\
    length generated = 2.
Proof.
  split; [reflexivity |].
  apply (proj1 (list_node_keeps_every_value no_repr linux
                  [NodeMapItem "type" (MPlain (PStr "EXECVE"));
                   NodeValue (LitInt 1)])).
  reflexivity.
Defined.

Lemma not_none_all (generated : list pyval) :
  Forall (fun r => is_none r = false) (not_none generated).
Proof.
  apply List.Forall_forall. intros r Hin.
  apply filter_In in Hin as [_ Hr]. by apply negb_true_iff in Hr.
Qed.

(** The last step of the Or handler and of a field with a list: one
    survivor alone, anything else under a rule list. *)
Lemma finish_rules_kept (op : string) (filtered : list pyval) (v : pyval) :
  Forall rules_kept filtered ->
  Forall (fun r => is_none r = false) filtered ->
  match filtered with
  | [single] => Ok single
  | _ => Ok (PDict [("op", PStr op); ("rules", PList filtered)])
  end = Ok v ->
  rules_kept v.
Proof.
  intros Hkept Hnone.
  destruct filtered as [|g [|g' more]]; intros [= <-].
  - intros x [= <-]. exists []. repeat split; [constructor | discriminate].
  - by inversion Hkept.
  - intros x [= <-]. eexists. repeat split; [exact Hnone | discriminate].
Qed.

Lemma field_match_leaf py_repr self (path : string) (v : pyval) :
  is_none (field_match py_repr self path v) = false /\
  rules_kept (field_match py_repr self path v).
Proof.
  unfold field_match. destruct (_valuePatternToLcOp py_repr self v) as [op newVal].
  split; [reflexivity | intros x; discriminate].
Qed.

Lemma keyword_rule_leaf py_repr self (path k : pyval) :
  is_none (keyword_rule py_repr self path k) = false /\
  rules_kept (keyword_rule py_repr self path k).
Proof. split; [reflexivity | intros x; discriminate]. Qed.

Lemma map_item_rules_kept py_repr self (fieldname : string) (value : mapvalue)
    (v : pyval) :
  generateMapItemNode py_repr self fieldname value = Ok v -> rules_kept v.
Proof.
  assert (Hleaves : forall path vs,
    Forall rules_kept (map (field_match py_repr self path) vs) /\
    Forall (fun r => is_none r = false) (map (field_match py_repr self path) vs)).
  { intros path vs. split; apply List.Forall_forall; intros r Hin;
      apply in_map_iff in Hin as (x & <- & _); apply field_match_leaf. }
  unfold generateMapItemNode, re_compile_modifier.
  destruct (_fieldMappingInEffect self) as [d|f];
    [destruct (d !! fieldname) as [[path|]|] | destruct (f fieldname) as [path|]];
    rewrite ?bind_Ok, ?bind_Raise; cbv beta iota;
    try discriminate; try (by intros [= <-]);
    destruct value as [[| | | |vs| |]|pattern|cls];
    rewrite ?bind_Raise; try discriminate;
    try (intros [= <-]; first [apply field_match_leaf | intros x; discriminate]);
    cbv zeta; apply finish_rules_kept; apply Hleaves.
Qed.

(** X20.  In every dict the node translator returns, the rule list has
    no [None] among its entries and never exactly one entry: a dropped
    child is left out of the combinator of its parent, and a combinator
    of a single child is never built. *)
Theorem generateNode_rules_kept py_repr self (n : node) (v : pyval) :
  generateNode py_repr self n = Ok v -> rules_kept v.
Proof.
  revert v. induction n as [items IH|items IH|item IH|items IH|values IH|fieldname value|lit]
    using node_nested_ind; intros v.
  - rewrite generateNode_AND.
    destruct (comprehension _ items) as [generated|e] eqn:Hgen; [| discriminate].
    rewrite bind_Ok. intros [= <-].
    pose proof (not_none_Forall rules_kept generated
      (comprehension_Forall (generateNode py_repr self) rules_kept
         items generated IH Hgen)) as Hkept.
    pose proof (not_none_all generated) as Hnone.
    destruct (not_none generated) as [|g [|g' more]]; cbn [collapse].
    + exact I.
    + by inversion Hkept.
    + intros x [= <-]. eexists. repeat split; [exact Hnone | discriminate].
  - rewrite generateNode_OR. unfold generateORNode.
    destruct (comprehension _ items) as [generated|e] eqn:Hgen; [| discriminate].
    rewrite bind_Ok. cbv zeta.
    pose proof (not_none_Forall rules_kept generated
      (comprehension_Forall (generateNode py_repr self) rules_kept
         items generated IH Hgen)) as Hkept.
    pose proof (not_none_all generated) as Hnone.
    destruct (not_none generated) as [|first rest]; [by intros [= <-] |].
    destruct first;
      try (rewrite bind_Ok; exact (finish_rules_kept "or" (_ :: rest) v Hkept Hnone)).
    destruct (_isKeywordsSupported self); cbn [negb]; [| discriminate].
    rewrite keyword_loop.
    destruct (keywords_path self) as [path|e]; [| discriminate].
    rewrite !bind_Ok. apply finish_rules_kept.
    + apply List.Forall_forall. intros r Hin.
      apply in_map_iff in Hin as (x & <- & _). apply keyword_rule_leaf.
    + apply List.Forall_forall. intros r Hin.
      apply in_map_iff in Hin as (x & <- & _). apply keyword_rule_leaf.
  - rewrite generateNode_NOT. unfold generateNOTNode.
    destruct (generateNode py_repr self item) as [g|e] eqn:Hg; [| discriminate].
    rewrite bind_Ok. specialize (IH g eq_refl).
    destruct g; try discriminate; intros [= <-]; [exact I |].
    intros x. rewrite dict_get_setitem_ne by discriminate. apply IH.
  - exact (IH v).
  - cbn [generateNode]. unfold generateListNode.
    destruct (comprehension _ values) as [generated|e]; [| discriminate].
    rewrite bind_Ok. by intros [= <-].
  - apply map_item_rules_kept.
  - cbn. intros [= <-]. by destruct lit.
Qed.

Lemma generateNode_rules_kept_witness :
  let exe := NodeMapItem "exe" (MPlain (PList [PStr "/bin/sh"; PStr "/bin/bash"])) in
  let ignored := NodeMapItem "type" (MPlain (PStr "EXECVE")) in
  let either :=
    PDict [("op", PStr "or");
           ("rules", PList [
              PDict [("op", PStr "is"); ("path", PStr "event/FILE_PATH");
                     ("value", PStr "/bin/sh"); ("case sensitive", PBool false)];
              PDict [("op", PStr "is"); ("path", PStr "event/FILE_PATH");
                     ("value", PStr "/bin/bash"); ("case sensitive", PBool false)]])] in
  generateNode no_repr linux (ConditionAND [ignored; exe; ignored]) = Ok either /\
  rules_kept either.
Proof.
  intros exe ignored either. split; [reflexivity |].
  apply (generateNode_rules_kept no_repr linux (ConditionAND [ignored; exe; ignored])).
  reflexivity.
Defined.
